(** * beacon_snowflake: the transcript pipeline, embedded and verified

    A shallow embedding of the Python sources
    [src/listener.py], [src/fetcher.py], [src/assistant_bridge.py],
    [src/drive_documenter.py], [src/email_dispatcher.py] and
    [src/orchestrator.py].

    Conventions of the embedding:
    - a call that may raise yields an [outcome]: [Returns v] or [Raises e];
    - the replies of the external services (Snowflake, OpenAI, Google
      Drive, SMTP, Gong) are inputs of the functions that consume them;
    - Python objects mutated in place ([queue.Queue], the [set] of seen
      identifiers, the logger, the Prometheus counters) are fields of
      explicit state records that every function returns updated. *)

From Stdlib Require Import ZArith String Ascii List Bool Lia.
From stdpp Require Import base option list gmap strings sets pretty.
From Equations Require Import Equations.
Import ListNotations.

Local Open Scope Z_scope.
Local Open Scope string_scope.

#[local] Set Warnings "-clear-no-such-hyp".

(** ** Python prelude: exceptions and results *)

(** An exception value.  [RetryError] is what tenacity raises (with the
    default [reraise=False]) once its stop condition holds. *)
Inductive exn : Type :=
| Error (msg : string)
| RetryError (last : exn).

(** [str(e)]: the text the orchestrator logs.  For a [RetryError] Python
    prints the wrapped future with a memory address; only its prefix is
    kept here. *)
Definition exn_str (e : exn) : string :=
  match e with
  | Error msg => msg
  | RetryError _ => "RetryError"
  end.

Inductive outcome (A : Type) : Type :=
| Returns (a : A)
| Raises (e : exn).
Arguments Returns {A} a.
Arguments Raises {A} e.

Definition is_raise {A} (o : outcome A) : bool :=
  match o with Raises _ => true | Returns _ => false end.

(** Truthiness of a Python [str]: only the empty string is falsy. *)
Definition str_truthy (s : string) : bool := negb (String.eqb s "").

(** Truthiness of an [Optional[str]] ([None], NULL, a missing key). *)
Definition opt_truthy (v : option string) : bool :=
  match v with
  | Some s => str_truthy s
  | None => false
  end.

(** ** tenacity: [@retry(stop=stop_after_attempt(n), wait=wait_exponential(...))]

    The decorator is third-party code; the stage modules only choose its
    parameters.  The model follows tenacity's [Retrying.__call__]: call the
    function; a returned value (whatever it is, [None] included) is handed
    back at once; on an exception, stop when [attempt_number] has reached
    the maximum and raise [RetryError], otherwise sleep
    [wait(attempt_number)] and call again. *)
Module Tenacity.

Record policy : Type := {
  max_attempt_number : nat;
  multiplier : Z;
  exp_base : Z;
  wait_min : Z;
  wait_max : Z
}.

(** [wait_exponential.__call__]:
    [max(max(0, min), min(multiplier * exp_base ** (attempt_number - 1), max))]. *)
Definition wait_exponential (p : policy) (attempt_number : nat) : Z :=
  Z.max (Z.max 0 (wait_min p))
        (Z.min (multiplier p * exp_base p ^ (Z.of_nat attempt_number - 1))
               (wait_max p)).

(** What one decorated call did: its result, how many times the
    underlying function ran, and the sleeps between the runs. *)
Record run (A : Type) : Type := {
  result : outcome A;
  calls : nat;
  sleeps : list Z
}.
Arguments result {A} r.
Arguments calls {A} r.
Arguments sleeps {A} r.

(** [fn k] is the outcome of the [k]-th run (from 0) of the underlying
    function; [remaining] counts the attempts still allowed after the
    current one. *)
Fixpoint retry_from {A} (p : policy) (fn : nat -> outcome A)
         (remaining : nat) (attempt_number : nat) (slept : list Z) : run A :=
  match fn (Nat.pred attempt_number) with
  | Returns a =>
      {| result := Returns a; calls := attempt_number; sleeps := slept |}
  | Raises e =>
      match remaining with
      | O =>
          {| result := Raises (RetryError e);
             calls := attempt_number; sleeps := slept |}
      | S remaining' =>
          retry_from p fn remaining' (S attempt_number)
                     (slept ++ [wait_exponential p attempt_number])
      end
  end.

Definition retrying {A} (p : policy) (fn : nat -> outcome A) : run A :=
  retry_from p fn (Nat.pred (max_attempt_number p)) 1%nat [].

(** An undecorated function: one run, whose outcome is the call's. *)
Definition undecorated {A} (fn : nat -> outcome A) : run A :=
  {| result := fn 0%nat; calls := 1%nat; sleeps := [] |}.

(** [stop_after_attempt(3)], [wait_exponential(multiplier=1, min=4, max=10)],
    the parameters every decorated stage function uses. *)
Definition stage_policy : policy :=
  {| max_attempt_number := 3; multiplier := 1; exp_base := 2;
     wait_min := 4; wait_max := 10 |}.

End Tenacity.

(** ** fetcher.py *)
Module Fetcher.

(** A column of the result row: SQL NULL ([None]) or text. *)
Definition sqlval : Type := option string.

(** The eight columns of the hard-coded query, in order. *)
Record Row : Type := {
  r_transcript_id : sqlval;   (* row[0] *)
  r_account_name : sqlval;    (* row[1] *)
  r_account_number : sqlval;  (* row[2] *)
  r_speaker_name : sqlval;    (* row[3] *)
  r_speaker_email : sqlval;   (* row[4] *)
  r_cs_email : sqlval;        (* row[5] *)
  r_am_email : sqlval;        (* row[6] *)
  r_transcript_text : sqlval  (* row[7] *)
}.

Record TranscriptData : Type := {
  transcript_id : sqlval;
  account_name : sqlval;
  account_number : sqlval;
  speaker_name : sqlval;
  speaker_email : sqlval;
  cs_email : sqlval;
  am_email : sqlval;
  transcript_text : sqlval
}.

(** What Snowflake answered: connecting or executing raised, or
    [cursor.fetchone()] gave a row or [None]. *)
Inductive db_reply : Type :=
| DbRaises (e : exn)
| DbFetched (row : option Row).

(** [all([row[1], ..., row[7]])] *)
Definition critical_fields (row : Row) : list sqlval :=
  [ r_account_name row; r_account_number row; r_speaker_name row;
    r_speaker_email row; r_cs_email row; r_am_email row;
    r_transcript_text row ].

Definition py_all (vs : list sqlval) : bool := forallb opt_truthy vs.

(** The body of [fetch_data], one run. *)
Definition fetch_data_body (reply : db_reply) : outcome (option TranscriptData) :=
  match reply with
  | DbRaises e => Raises e
  | DbFetched None => Returns None
  | DbFetched (Some row) =>
      if negb (py_all (critical_fields row)) then Returns None
      else Returns (Some
        {| transcript_id := r_transcript_id row;
           account_name := r_account_name row;
           account_number := r_account_number row;
           speaker_name := r_speaker_name row;
           speaker_email := r_speaker_email row;
           cs_email := r_cs_email row;
           am_email := r_am_email row;
           transcript_text := r_transcript_text row |})
  end.

(** The decorated [fetch_data]; [replies k] is Snowflake's answer to the
    [k]-th run. *)
Definition fetch_data (replies : nat -> db_reply)
  : Tenacity.run (option TranscriptData) :=
  Tenacity.retrying Tenacity.stage_policy (fun k => fetch_data_body (replies k)).

End Fetcher.

(** ** assistant_bridge.py *)
Module Assistant.

(** [str.isspace] on the code points below 256: TAB, LF, VT, FF, CR,
    FS, GS, RS, US, SPACE, NEL and NBSP.  A [string] is read as its
    sequence of code points. *)
Definition is_space (c : ascii) : bool :=
  let n := N_of_ascii c in
  ((9 <=? n) && (n <=? 13) || (28 <=? n) && (n <=? 32)
   || (n =? 133) || (n =? 160))%N.

Fixpoint lstrip (s : string) : string :=
  match s with
  | EmptyString => EmptyString
  | String c s' => if is_space c then lstrip s' else s
  end.

Fixpoint rstrip (s : string) : string :=
  match s with
  | EmptyString => EmptyString
  | String c s' =>
      match rstrip s' with
      | EmptyString => if is_space c then EmptyString else String c EmptyString
      | r => String c r
      end
  end.

(** [str.strip()] *)
Definition strip (s : string) : string := rstrip (lstrip s).

(** The OpenAI service as one run of [get_summary] sees it.  Times are in
    milliseconds: [time.sleep(2)] lasts 2000, and the [i]-th
    [runs.retrieve] call lasts [retrieve_ms i]. *)
Record Env : Type := {
  thread_create : outcome string;          (* client.beta.threads.create() *)
  message_create : outcome unit;           (* threads.messages.create(...) *)
  run_create : outcome string;             (* threads.runs.create(...) *)
  run_retrieve : nat -> outcome string;    (* run_status.status at poll i *)
  retrieve_ms : nat -> N;
  (* [messages.data[0].content[0].text.value]: raises when the list call,
     an index or an attribute lookup fails *)
  messages_list : outcome (option string)
}.

Definition default_timeout : Z := 120.   (* int(os.getenv('TIMEOUT', 120)) *)
Definition poll_sleep_ms : Z := 2000.    (* time.sleep(2) *)

Definition terminal_failures : list string := ["failed"; "cancelled"; "expired"].

Inductive status_kind : Type := StCompleted | StFailed | StOther.

Definition classify (status : string) : status_kind :=
  if String.eqb status "completed" then StCompleted
  else if existsb (String.eqb status) terminal_failures then StFailed
  else StOther.

(** The branch taken under [run_status.status == "completed"]. *)
Definition read_response (env : Env) : outcome (option string) :=
  match messages_list env with
  | Raises e => Raises e
  | Returns assistant_response =>
      if opt_truthy assistant_response
         && str_truthy (strip (default "" assistant_response))
      then Returns (Some (strip (default "" assistant_response)))
      else Returns None
  end.

(** [while time.time() - start_time < self.timeout: ...], entered for the
    [i]-th time [elapsed] milliseconds after [start_time]. *)
Equations? wait_for_run (env : Env) (timeout_ms : Z) (i : nat) (elapsed : Z)
  : outcome (option string) by wf (Z.to_nat (timeout_ms - elapsed)) lt :=
wait_for_run env timeout_ms i elapsed with Z_lt_dec elapsed timeout_ms := {
  | right _ => Returns None                       (* timeout reached *)
  | left _ with run_retrieve env i := {
    | Raises e => Raises e
    | Returns status with classify status := {
      | StCompleted => read_response env
      | StFailed => Returns None
      | StOther =>
          wait_for_run env timeout_ms (S i)
            (elapsed + Z.of_N (retrieve_ms env i) + poll_sleep_ms) } } }.
Proof. unfold poll_sleep_ms. lia. Qed.

(** The body of [get_summary], one run. *)
Definition get_summary_body (timeout : Z) (env : Env) : outcome (option string) :=
  match thread_create env with
  | Raises e => Raises e
  | Returns _ =>
      match message_create env with
      | Raises e => Raises e
      | Returns _ =>
          match run_create env with
          | Raises e => Raises e
          | Returns _ => wait_for_run env (timeout * 1000) 0%nat 0
          end
      end
  end.

(** The decorated [get_summary]; [envs k] is the service during the
    [k]-th run. *)
Definition get_summary (timeout : Z) (envs : nat -> Env)
  : Tenacity.run (option string) :=
  Tenacity.retrying Tenacity.stage_policy
    (fun k => get_summary_body timeout (envs k)).

(** The time since [start_time] at which the loop is entered for the
    [j]-th time, when every earlier poll found the run still going. *)
Fixpoint elapsed_at (env : Env) (j : nat) : Z :=
  match j with
  | O => 0
  | S j' => elapsed_at env j' + Z.of_N (retrieve_ms env j') + poll_sleep_ms
  end.

(** The thread, the message and the run were created without an exception. *)
Definition setup_ok (env : Env) : Prop :=
  is_raise (thread_create env) = false
  /\ is_raise (message_create env) = false
  /\ is_raise (run_create env) = false.

(** The polls before the [j]-th all found a status that is neither
    completed nor a terminal failure. *)
Definition pending_before (env : Env) (j : nat) : Prop :=
  forall i, (i < j)%nat ->
    exists status, run_retrieve env i = Returns status /\ classify status = StOther.

End Assistant.


(** ** email_dispatcher.py *)
Module Email.

(** The f-string rendering of a field: [None] prints as the text None. *)
Definition py_str (v : option string) : string := default "None" v.

(** The body of [send_email], one run; [smtp] is what the SMTP session
    (connect, STARTTLS, login, send) did. *)
Definition send_email_body (smtp : outcome unit) (to_email : string) : outcome string :=
  match smtp with
  | Raises e => Raises e
  | Returns _ => Returns ("EMAIL_SENT_" +:+ to_email)
  end.

(** The decorated [send_email]. *)
Definition send_email (smtp : nat -> outcome unit) (to_email : string)
  : Tenacity.run string :=
  Tenacity.retrying Tenacity.stage_policy (fun k => send_email_body (smtp k) to_email).

(** What [send_emails] meets: the two template renderings and the two
    SMTP sessions, run by run. *)
Record Env : Type := {
  render_cs : outcome string;
  smtp_cs : nat -> outcome unit;
  render_am : outcome string;
  smtp_am : nat -> outcome unit
}.

Definition send_emails (env : Env) (data : Fetcher.TranscriptData)
  : outcome (string * string) :=
  match render_cs env with
  | Raises e => Raises e
  | Returns _ =>
      match Tenacity.result (send_email (smtp_cs env) (py_str (Fetcher.cs_email data))) with
      | Raises e => Raises e
      | Returns cs_status =>
          match render_am env with
          | Raises e => Raises e
          | Returns _ =>
              match Tenacity.result
                      (send_email (smtp_am env) (py_str (Fetcher.am_email data))) with
              | Raises e => Raises e
              | Returns am_status => Returns (cs_status, am_status)
              end
          end
      end
  end.

End Email.

(** ** drive_documenter.py *)
Module Drive.

Definition folder_mime : string := "application/vnd.google-apps.folder".
Definition document_mime : string := "application/vnd.google-apps.document".
Definition clients_folder_name : string := "Clientes".

Record File : Type := {
  id : nat;
  name : string;
  mimeType : string;
  parents : list nat
}.

(** The Drive and Docs services: the files in listing order, the text of
    each document (without the newline that ends every Docs body), the
    next identifier the service hands out, and whether requests get
    through at all. *)
Record t : Type := {
  up : bool;
  files : list File;
  docs : gmap nat string;
  next_id : nat
}.

Definition empty : t :=
  {| up := true; files := []; docs := ∅; next_id := 0%nat |}.

(** Calls on the service: the state goes in and comes out, an exception
    ends the sequence. *)
Definition M (A : Type) : Type := t -> outcome A * t.

Definition ret {A} (a : A) : M A := fun d => (Returns a, d).

Definition bind {A B} (c : M A) (k : A -> M B) : M B :=
  fun d =>
    match c d with
    | (Returns a, d') => k a d'
    | (Raises e, d') => (Raises e, d')
    end.

Notation "x <~ c ;; k" := (bind c (fun x => k))
  (at level 100, c at next level, right associativity).

Definition http_error : exn := Error "HttpError".

(** A request: refused when the service is down. *)
Definition request {A} (f : t -> outcome A * t) : M A :=
  fun d => if up d then f d else (Raises http_error, d).

(** The query [name='..' and mimeType='..'], with [and '<p>' in parents]
    when [parent] is given. *)
Definition matches (nm mime : string) (parent : option nat) (f : File) : bool :=
  String.eqb (name f) nm && String.eqb (mimeType f) mime
  && match parent with
     | None => true
     | Some p => existsb (Nat.eqb p) (parents f)
     end.

(** [drive_service.files().list(q=query).execute().get('files', [])] *)
Definition files_list (nm mime : string) (parent : option nat) : M (list File) :=
  request (fun d => (Returns (List.filter (matches nm mime parent) (files d)), d)).

(** [drive_service.files().create(body=metadata).execute()['id']]; a new
    Google document starts empty. *)
Definition files_create (nm mime : string) (pars : list nat) : M nat :=
  request (fun d =>
    let i := next_id d in
    (Returns i,
     {| up := up d;
        files := files d ++ [{| id := i; name := nm; mimeType := mime; parents := pars |}];
        docs := if String.eqb mime document_mime then <[i := ""]> (docs d) else docs d;
        next_id := S i |})).

(** The shape shared by the three [get_or_create_*] methods. *)
Definition find_or_create (nm mime : string) (parent : option nat) : M nat :=
  items <~ files_list nm mime parent ;;
  match items with
  | f :: _ => ret (id f)
  | [] => files_create nm mime (match parent with Some p => [p] | None => [] end)
  end.

Definition get_or_create_clients_folder : M nat :=
  find_or_create clients_folder_name folder_mime None.

Definition get_or_create_account_folder (account_name : string) : M nat :=
  clients_folder_id <~ get_or_create_clients_folder ;;
  find_or_create account_name folder_mime (Some clients_folder_id).

Definition get_or_create_doc (folder_id : nat) (doc_name : string) : M nat :=
  find_or_create doc_name document_mime (Some folder_id).

Fixpoint str_take (n : nat) (s : string) : string :=
  match n, s with
  | S n', String c s' => String c (str_take n' s')
  | _, _ => EmptyString
  end.

Fixpoint str_drop (n : nat) (s : string) : string :=
  match n, s with
  | S n', String _ s' => str_drop n' s'
  | _, _ => s
  end.

(** [docs_service.documents().get(documentId=doc_id)], reduced to what the
    callers read: [doc['body']['content'][-1]['endIndex']].  Body indexes
    start at 1 and the body ends with a newline, so a text of length [n]
    ends at index [n + 2]. *)
Definition documents_get_end_index (doc_id : nat) : M Z :=
  request (fun d =>
    match docs d !! doc_id with
    | Some text => (Returns (Z.of_nat (String.length text) + 2), d)
    | None => (Raises http_error, d)
    end).

(** [batchUpdate] with one [deleteContentRange] from [start_index] to
    [end_index] (exclusive); the final newline cannot be deleted. *)
Definition batch_delete (doc_id : nat) (start_index end_index : Z) : M unit :=
  request (fun d =>
    match docs d !! doc_id with
    | Some text =>
        if ((1 <=? start_index) && (start_index <? end_index)
            && (end_index <=? Z.of_nat (String.length text) + 1))%Z
        then (Returns tt,
              {| up := up d; files := files d; next_id := next_id d;
                 docs := <[doc_id :=
                   str_take (Z.to_nat (start_index - 1)) text
                   +:+ str_drop (Z.to_nat (end_index - 1)) text]> (docs d) |})
        else (Raises http_error, d)
    | None => (Raises http_error, d)
    end).

(** [batchUpdate] with one [insertText] at [index]. *)
Definition batch_insert (doc_id : nat) (index : Z) (content : string) : M unit :=
  request (fun d =>
    match docs d !! doc_id with
    | Some text =>
        if ((1 <=? index) && (index <=? Z.of_nat (String.length text) + 1))%Z
        then (Returns tt,
              {| up := up d; files := files d; next_id := next_id d;
                 docs := <[doc_id :=
                   str_take (Z.to_nat (index - 1)) text
                   +:+ content
                   +:+ str_drop (Z.to_nat (index - 1)) text]> (docs d) |})
        else (Raises http_error, d)
    | None => (Raises http_error, d)
    end).

Definition overwrite_doc (doc_id : nat) (content : string) : M unit :=
  last_end <~ documents_get_end_index doc_id ;;
  let end_index := last_end - 1 in
  _ <~ (if (1 <? end_index)%Z then batch_delete doc_id 1 end_index else ret tt) ;;
  batch_insert doc_id 1 content.

Definition append_to_doc (doc_id : nat) (content : string) : M unit :=
  last_end <~ documents_get_end_index doc_id ;;
  let end_index := last_end - 1 in
  batch_insert doc_id end_index content.

Definition get_doc_url (doc_id : nat) : string :=
  "https://docs.google.com/document/d/" +:+ pretty doc_id +:+ "/edit".

Definition nl : string := String (ascii_of_nat 10) EmptyString.

(** [f"\n--- {timestamp} ---\n{summary}\n"] *)
Definition log_entry (timestamp summary : string) : string :=
  nl +:+ "--- " +:+ timestamp +:+ " ---" +:+ nl +:+ summary +:+ nl.

(** [update_drive_docs]; [timestamp] is
    [datetime.now().strftime("%Y-%m-%d %H:%M")] as read during the call.
    The method carries no retry decorator. *)
Definition update_drive_docs (account_name summary timestamp : string)
  : M (string * string) :=
  folder_id <~ get_or_create_account_folder account_name ;;
  call_doc_id <~ get_or_create_doc folder_id "Call Summary" ;;
  _ <~ overwrite_doc call_doc_id summary ;;
  log_doc_id <~ get_or_create_doc folder_id "Summary Log" ;;
  _ <~ append_to_doc log_doc_id (log_entry timestamp summary) ;;
  ret (get_doc_url call_doc_id, get_doc_url log_doc_id).

(** The documents named [nm] that sit in [folder_id]. *)
Definition docs_named (d : t) (folder_id : nat) (nm : string) : list nat :=
  map id (List.filter (matches nm document_mime (Some folder_id)) (files d)).

End Drive.


(** ** [queue.Queue], as far as the pipeline uses it *)
Module PyQueue.

(** The queued items, oldest first, and the count that [put] raises,
    [task_done] lowers and [join] waits on. *)
Record t : Type := {
  items : list string;
  unfinished_tasks : nat
}.

Definition empty : t := {| items := []; unfinished_tasks := 0 |}.

Definition put (x : string) (q : t) : t :=
  {| items := items q ++ [x]; unfinished_tasks := S (unfinished_tasks q) |}.

(** [get(timeout=..)]: [None] stands for [queue.Empty]. *)
Definition get (q : t) : option (string * t) :=
  match items q with
  | [] => None
  | x :: rest => Some (x, {| items := rest; unfinished_tasks := unfinished_tasks q |})
  end.

Definition task_done (q : t) : outcome t :=
  match unfinished_tasks q with
  | O => Raises (Error "task_done() called too many times")
  | S n => Returns {| items := items q; unfinished_tasks := n |}
  end.

Definition qsize (q : t) : nat := length (items q).

(** [join()] returns only once no task is unfinished. *)
Definition join_returns (q : t) : bool := Nat.eqb (unfinished_tasks q) 0.

End PyQueue.

(** ** listener.py *)
Module Listener.

(** A naive [datetime]: the date as a day number and the time of day in
    microseconds.  Values compare by date, then time. *)
Record datetime : Type := {
  ordinal : Z;
  micros : Z
}.

Definition day_us : Z := 86400 * 1000000.

Definition dt_ltb (a b : datetime) : bool :=
  ((ordinal a <? ordinal b)
   || (ordinal a =? ordinal b) && (micros a <? micros b))%Z.

(** [dt + timedelta(days=n)] *)
Definition add_days (dt : datetime) (n : Z) : datetime :=
  {| ordinal := ordinal dt + n; micros := micros dt |}.

(** [(a - b).total_seconds()], kept in microseconds *)
Definition diff_us (a b : datetime) : Z :=
  (ordinal a - ordinal b) * day_us + (micros a - micros b).

(** [datetime.time(hour, minute)] as microseconds after midnight; the
    constructor raises [ValueError] outside 0..23 and 0..59. *)
Definition dt_time (hour minute : Z) : outcome Z :=
  if ((0 <=? hour) && (hour <? 24) && (0 <=? minute) && (minute <? 60))%Z
  then Returns ((hour * 3600 + minute * 60) * 1000000)
  else Raises (Error "ValueError").

(** [datetime.combine(date, time)] *)
Definition combine (date : Z) (time_us : Z) : datetime :=
  {| ordinal := date; micros := time_us |}.

(** A JSON value of a Gong record, as far as the listener looks at it. *)
Inductive jval : Type :=
| JNull
| JStr (s : string).

(** The attributes of a [GongListener]. *)
Record t : Type := {
  processed_ids : gset string;
  run_hour : Z;
  run_minute : Z;
  idle_sleep_seconds : Z;
  running : bool
}.

(** [__init__], with the values read from RUN_HOUR, RUN_MINUTE and
    POLL_INTERVAL. *)
Definition init (hour minute idle : Z) : t :=
  {| processed_ids := ∅; run_hour := hour; run_minute := minute;
     idle_sleep_seconds := idle; running := false |}.

Definition default_run_hour : Z := 7.
Definition default_run_minute : Z := 0.
Definition default_idle_sleep_seconds : Z := 300.

(** What the Gong request did. *)
Inductive gong_reply : Type :=
| GongRequestException (e : exn)        (* network failure or non-2xx status *)
| GongOtherException (e : exn)          (* anything else raised on the way *)
| GongJson (transcripts : option (list (gmap string jval))).
                                        (* the body's 'transcripts' key, if any *)

(** [poll_gong_transcripts] *)
Definition poll_gong_transcripts (reply : gong_reply)
  : outcome (list (gmap string jval)) :=
  match reply with
  | GongRequestException _ => Returns []
  | GongOtherException e => Raises e
  | GongJson transcripts => Returns (default [] transcripts)
  end.

(** [row.get('transcript_id')] *)
Definition row_get (row : gmap string jval) (key : string) : option string :=
  match row !! key with
  | Some (JStr s) => Some s
  | Some JNull => None
  | None => None
  end.

(** The body of [for row in new_rows]. *)
Definition handle_row (st : t * PyQueue.t) (row : gmap string jval) : t * PyQueue.t :=
  let '(l, q) := st in
  match row_get row "transcript_id" with
  | Some transcript_id =>
      if str_truthy transcript_id
         && negb (bool_decide (transcript_id ∈ processed_ids l))
      then ({| processed_ids := processed_ids l ∪ {[ transcript_id ]};
               run_hour := run_hour l; run_minute := run_minute l;
               idle_sleep_seconds := idle_sleep_seconds l;
               running := running l |},
            PyQueue.put transcript_id q)
      else (l, q)
  | None => (l, q)
  end.

Definition handle_rows (rows : list (gmap string jval)) (st : t * PyQueue.t)
  : t * PyQueue.t :=
  fold_left handle_row rows st.

(** The value [next_run] gets before the loop. *)
Definition initial_next_run (l : t) (now : datetime) : outcome datetime :=
  match dt_time (run_hour l) (run_minute l) with
  | Raises e => Raises e
  | Returns at_time =>
      let scheduled_today := combine (ordinal now) at_time in
      Returns (if dt_ltb now scheduled_today then scheduled_today
               else add_days scheduled_today 1)
  end.

(** What one turn of the loop did. *)
Inductive turn : Type :=
| Slept (us : Z)        (* not yet time: [time.sleep(max(sleep_seconds, 1))] *)
| Fired                 (* polled, enqueued, advanced [next_run] *)
| Recovered (e : exn).  (* [except Exception]: logged, [time.sleep(30)] *)

(** The state of the running loop: the object, the local [next_run] and
    the shared queue. *)
Record loop_state : Type := {
  self : t;
  next_run : datetime;
  event_queue : PyQueue.t
}.

(** One turn of [while self.running], taken at wall-clock time [now];
    [reply] is what Gong would answer. *)
Definition loop_turn (now : datetime) (reply : gong_reply) (s : loop_state)
  : loop_state * turn :=
  if dt_ltb now (next_run s) then
    let sleep_us :=
      Z.min (diff_us (next_run s) now) (idle_sleep_seconds (self s) * 1000000) in
    (s, Slept (Z.max sleep_us 1000000))
  else
    match poll_gong_transcripts reply with
    | Raises e => (s, Recovered e)
    | Returns new_rows =>
        let '(l, q) := handle_rows new_rows (self s, event_queue s) in
        ({| self := l; next_run := add_days (next_run s) 1; event_queue := q |},
         Fired)
    end.

(** [start_listening] up to the loop: sets [running] and computes
    [next_run]. *)
Definition start_listening (l : t) (q : PyQueue.t) (now : datetime)
  : outcome loop_state :=
  let l' := {| processed_ids := processed_ids l; run_hour := run_hour l;
               run_minute := run_minute l;
               idle_sleep_seconds := idle_sleep_seconds l; running := true |} in
  match initial_next_run l' now with
  | Raises e => Raises e
  | Returns nr => Returns {| self := l'; next_run := nr; event_queue := q |}
  end.

(** A run of the loop over the successive clock readings and replies, for
    as long as [running] holds. *)
Fixpoint run_loop (inputs : list (datetime * gong_reply)) (s : loop_state)
  : loop_state :=
  match inputs with
  | [] => s
  | (now, reply) :: rest =>
      if running (self s) then run_loop rest (fst (loop_turn now reply s)) else s
  end.

(** [stop_listening]; nothing in the repository calls it. *)
Definition stop_listening (l : t) : t :=
  {| processed_ids := processed_ids l; run_hour := run_hour l;
     run_minute := run_minute l; idle_sleep_seconds := idle_sleep_seconds l;
     running := false |}.

End Listener.


(** ** orchestrator.py *)
Module Orchestrator.

(** A value passed to [_log_structured] as a keyword argument. *)
Inductive logval : Type :=
| LInt (n : Z)
| LStr (s : string)
| LNone.

Definition logval_of (v : option string) : logval :=
  match v with
  | Some s => LStr s
  | None => LNone
  end.

(** One line of [logs/orchestrator.log] (the timestamp left out). *)
Record LogEntry : Type := {
  le_transcript_id : string;
  le_status : string;
  le_module : option string;
  le_error : option string;
  le_extra : list (string * logval)
}.

(** The attributes of an [Orchestrator] that the pipeline changes: the
    flag, the structured log (oldest line first) and the Prometheus
    metrics.  The queue is kept apart, since the listener shares it. *)
Record t : Type := {
  running : bool;
  max_retries : Z;
  json_log : list LogEntry;
  success_counter : nat;
  error_counter : gmap (string * string) nat;
  processing_time : list Z;
  in_flight_gauge : Z;
  queue_size_gauge : Z
}.

Definition default_max_retries : Z := 3.   (* int(os.getenv('MAX_RETRIES', 3)) *)

Definition init (retries : Z) : t :=
  {| running := false; max_retries := retries; json_log := [];
     success_counter := 0; error_counter := ∅; processing_time := [];
     in_flight_gauge := 0; queue_size_gauge := 0 |}.

Definition set_running (b : bool) (o : t) : t :=
  {| running := b; max_retries := max_retries o; json_log := json_log o;
     success_counter := success_counter o; error_counter := error_counter o;
     processing_time := processing_time o; in_flight_gauge := in_flight_gauge o;
     queue_size_gauge := queue_size_gauge o |}.

Definition set_json_log (l : list LogEntry) (o : t) : t :=
  {| running := running o; max_retries := max_retries o; json_log := l;
     success_counter := success_counter o; error_counter := error_counter o;
     processing_time := processing_time o; in_flight_gauge := in_flight_gauge o;
     queue_size_gauge := queue_size_gauge o |}.

Definition set_error_counter (c : gmap (string * string) nat) (o : t) : t :=
  {| running := running o; max_retries := max_retries o; json_log := json_log o;
     success_counter := success_counter o; error_counter := c;
     processing_time := processing_time o; in_flight_gauge := in_flight_gauge o;
     queue_size_gauge := queue_size_gauge o |}.

Definition set_in_flight_gauge (g : Z) (o : t) : t :=
  {| running := running o; max_retries := max_retries o; json_log := json_log o;
     success_counter := success_counter o; error_counter := error_counter o;
     processing_time := processing_time o; in_flight_gauge := g;
     queue_size_gauge := queue_size_gauge o |}.

Definition set_queue_size_gauge (g : Z) (o : t) : t :=
  {| running := running o; max_retries := max_retries o; json_log := json_log o;
     success_counter := success_counter o; error_counter := error_counter o;
     processing_time := processing_time o; in_flight_gauge := in_flight_gauge o;
     queue_size_gauge := g |}.

(** [processing_time.observe(..)] then [success_counter.inc()] *)
Definition record_success (duration_us : Z) (o : t) : t :=
  {| running := running o; max_retries := max_retries o; json_log := json_log o;
     success_counter := S (success_counter o); error_counter := error_counter o;
     processing_time := processing_time o ++ [duration_us];
     in_flight_gauge := in_flight_gauge o;
     queue_size_gauge := queue_size_gauge o |}.

(** [_signal_handler] *)
Definition signal_handler (o : t) : t := set_running false o.

(** [_log_structured]: [module] and [error] are written only when truthy. *)
Definition log_structured (transcript_id status : string)
           (module error : option string) (kwargs : list (string * logval))
           (o : t) : t :=
  set_json_log
    (json_log o ++
     [{| le_transcript_id := transcript_id;
         le_status := status;
         le_module := if opt_truthy module then module else None;
         le_error := if opt_truthy error then error else None;
         le_extra := kwargs |}]) o.

Definition error_count (o : t) (module error_type : string) : nat :=
  default 0%nat (error_counter o !! (module, error_type)).

(** [error_counter.labels(module=.., error_type=..).inc()] *)
Definition inc_error (module error_type : string) (o : t) : t :=
  set_error_counter
    (<[(module, error_type) := S (error_count o module error_type)]> (error_counter o)) o.

(** [_should_retry] *)
Definition should_retry (o : t) (transcript_id : string) (attempt : Z) : bool :=
  (attempt <? max_retries o)%Z.

(** [_requeue_transcript]: the identifier alone goes back on the queue. *)
Definition requeue_transcript (transcript_id : string) (q : PyQueue.t) : PyQueue.t :=
  PyQueue.put transcript_id q.

(** The four stage objects as [process_transcript] calls them, and the
    wall-clock time the whole call takes. *)
Record Stages : Type := {
  fetch_data : string -> outcome (option Fetcher.TranscriptData);
  get_summary : Fetcher.TranscriptData -> outcome (option string);
  update_drive_docs : option string -> string -> outcome (string * string);
  send_emails : Fetcher.TranscriptData -> string -> string * string
                -> outcome (string * string);
  duration_us : Z
}.

(** The [try] block of [process_transcript]: what it returns or raises,
    and the state it leaves either way. *)
Definition try_block (st : Stages) (transcript_id : string) (attempt : Z) (o : t)
  : outcome bool * t :=
  let o := set_in_flight_gauge (in_flight_gauge o + 1) o in
  let o := log_structured transcript_id "PROCESSING_STARTED" None None
                          [("attempt", LInt attempt)] o in
  match fetch_data st transcript_id with
  | Raises e => (Raises e, o)
  | Returns None =>
      let o := log_structured transcript_id "FAILED_FETCH" (Some "fetcher") None [] o in
      (Returns false, inc_error "fetcher" "no_data" o)
  | Returns (Some data) =>
      let o := log_structured transcript_id "FETCH_SUCCESS" (Some "fetcher") None
                 [("account_name", logval_of (Fetcher.account_name data))] o in
      match get_summary st data with
      | Raises e => (Raises e, o)
      | Returns summary =>
          if negb (opt_truthy summary) then
            let o := log_structured transcript_id "FAILED_OAI" (Some "assistant")
                                    None [] o in
            (Returns false, inc_error "assistant" "no_summary" o)
          else
            let summary := default "" summary in
            let o := log_structured transcript_id "SUMMARY_SUCCESS" (Some "assistant")
                                    None [] o in
            match update_drive_docs st (Fetcher.account_name data) summary with
            | Raises e => (Raises e, o)
            | Returns doc_links =>
                let o := log_structured transcript_id "DRIVE_SUCCESS"
                           (Some "drive_documenter") None
                           [("call_doc_url", LStr (fst doc_links));
                            ("log_doc_url", LStr (snd doc_links))] o in
                match send_emails st data summary doc_links with
                | Raises e => (Raises e, o)
                | Returns email_status =>
                    let o := log_structured transcript_id "EMAIL_SUCCESS"
                               (Some "email_dispatcher") None
                               [("cs_status", LStr (fst email_status));
                                ("am_status", LStr (snd email_status))] o in
                    let o := record_success (duration_us st) o in
                    let o := log_structured transcript_id "PIPELINE_SUCCESS" None None
                               [("processing_time_seconds", LInt (duration_us st))] o in
                    (Returns true, o)
                end
            end
      end
  end.

(** The [except Exception as e] block. *)
Definition except_block (transcript_id : string) (attempt : Z) (e : exn)
           (o : t) (q : PyQueue.t) : bool * t * PyQueue.t :=
  let error_msg := exn_str e in
  let o := log_structured transcript_id "PIPELINE_ERROR" None (Some error_msg)
                          [("attempt", LInt attempt)] o in
  let o := inc_error "orchestrator" "general" o in
  if should_retry o transcript_id attempt then
    (false, o, requeue_transcript transcript_id q)
  else
    (false,
     log_structured transcript_id "PIPELINE_FAILED_FINAL" None None
                    [("max_attempts", LInt attempt)] o,
     q).

(** [process_transcript(transcript_id, attempt)], with its [finally]. *)
Definition process_transcript (st : Stages) (transcript_id : string) (attempt : Z)
           (o : t) (q : PyQueue.t) : bool * t * PyQueue.t :=
  let '(r, o1) := try_block st transcript_id attempt o in
  let '(b, o2, q2) :=
    match r with
    | Returns b => (b, o1, q)
    | Raises e => except_block transcript_id attempt e o1 q
    end in
  (b, set_in_flight_gauge (in_flight_gauge o2 - 1) o2, q2).

(** The default of the [attempt] parameter. *)
Definition default_attempt : Z := 1.

(** One turn of [while self.running] in [run_pipeline_worker]; the worker
    calls [self.process_transcript(transcript_id)], leaving [attempt] to
    its default. *)
Definition worker_turn (st : Stages) (o : t) (q : PyQueue.t) : t * PyQueue.t :=
  let o := set_queue_size_gauge (Z.of_nat (PyQueue.qsize q)) o in
  match PyQueue.get q with
  | None => (o, q)                               (* queue.Empty: continue *)
  | Some (transcript_id, q1) =>
      let '(_, o2, q2) := process_transcript st transcript_id default_attempt o q1 in
      match PyQueue.task_done q2 with
      | Returns q3 => (o2, q3)
      | Raises _ => (o2, q2)                     (* except Exception: logged *)
      end
  end.

(** [run_pipeline_worker] over the stage behaviour met turn by turn, for
    as long as [running] holds. *)
Fixpoint run_pipeline_worker (turns : list Stages) (o : t) (q : PyQueue.t)
  : t * PyQueue.t :=
  match turns with
  | [] => (o, q)
  | st :: rest =>
      if running o then
        let '(o', q') := worker_turn st o q in run_pipeline_worker rest o' q'
      else (o, q)
  end.

(** The lines of the log with a given status. *)
Definition entries_with_status (status : string) (log : list LogEntry)
  : list LogEntry :=
  List.filter (fun e => String.eqb (le_status e) status) log.

(** The lines whose status tag starts with FAILED. *)
Definition failed_entries (log : list LogEntry) : list LogEntry :=
  List.filter (fun e => String.prefix "FAILED" (le_status e)) log.

(** The [attempt] a log line carries. *)
Definition logged_attempt (e : LogEntry) : option logval :=
  snd <$> List.find (fun kv => String.eqb (fst kv) "attempt") (le_extra e).

End Orchestrator.

(** ** The process: main thread, listener thread and signals *)
Module System.

(** Where the main thread is: in the worker loop ([start]), blocked in
    [event_queue.join()] ([stop]), or past it. *)
Inductive main_pc : Type :=
| InWorkerLoop
| InJoin
| Exited.

(** The orchestrator and the listener hold the same queue object; the
    listener keeps a flag of its own. *)
Record t : Type := {
  orch : Orchestrator.t;
  lis : Listener.t;
  lis_next_run : Listener.datetime;
  event_queue : PyQueue.t;
  pc : main_pc
}.

Inductive event : Type :=
| Signal                                        (* SIGINT or SIGTERM delivered *)
| WorkerTurn (st : Orchestrator.Stages)
| LeaveLoop                                     (* the worker loop ends; [stop()] begins *)
| JoinReturns
| ListenerTurn (now : Listener.datetime) (reply : Listener.gong_reply).

Definition is_exited (p : main_pc) : bool :=
  match p with Exited => true | _ => false end.

(** What an event does, when the process can take it. *)
Definition exec (ev : event) (s : t) : option t :=
  match ev with
  | Signal =>
      if is_exited (pc s) then None
      else Some {| orch := Orchestrator.signal_handler (orch s); lis := lis s;
                   lis_next_run := lis_next_run s; event_queue := event_queue s;
                   pc := pc s |}
  | WorkerTurn st =>
      match pc s with
      | InWorkerLoop =>
          if Orchestrator.running (orch s) then
            let '(o, q) := Orchestrator.worker_turn st (orch s) (event_queue s) in
            Some {| orch := o; lis := lis s; lis_next_run := lis_next_run s;
                    event_queue := q; pc := InWorkerLoop |}
          else None
      | _ => None
      end
  | LeaveLoop =>
      match pc s with
      | InWorkerLoop =>
          if Orchestrator.running (orch s) then None
          else Some {| orch := Orchestrator.set_running false (orch s);
                       lis := lis s; lis_next_run := lis_next_run s;
                       event_queue := event_queue s; pc := InJoin |}
      | _ => None
      end
  | JoinReturns =>
      match pc s with
      | InJoin =>
          if PyQueue.join_returns (event_queue s) then
            Some {| orch := orch s; lis := lis s; lis_next_run := lis_next_run s;
                    event_queue := event_queue s; pc := Exited |}
          else None
      | _ => None
      end
  | ListenerTurn now reply =>
      (* a daemon thread: it runs until the process exits *)
      if is_exited (pc s) then None
      else if Listener.running (lis s) then
        let ls := {| Listener.self := lis s; Listener.next_run := lis_next_run s;
                     Listener.event_queue := event_queue s |} in
        let ls' := fst (Listener.loop_turn now reply ls) in
        Some {| orch := orch s; lis := Listener.self ls';
                lis_next_run := Listener.next_run ls';
                event_queue := Listener.event_queue ls'; pc := pc s |}
      else None
  end.

Fixpoint exec_all (evs : list event) (s : t) : option t :=
  match evs with
  | [] => Some s
  | ev :: rest =>
      match exec ev s with
      | Some s' => exec_all rest s'
      | None => None
      end
  end.

(** [Orchestrator.start()] has set [running], started the listener thread
    and entered the worker loop; the listener has computed [next_run]. *)
Definition started (retries : Z) (next_run : Listener.datetime) : t :=
  {| orch := Orchestrator.set_running true (Orchestrator.init retries);
     lis := {| Listener.processed_ids := ∅;
               Listener.run_hour := Listener.default_run_hour;
               Listener.run_minute := Listener.default_run_minute;
               Listener.idle_sleep_seconds := Listener.default_idle_sleep_seconds;
               Listener.running := true |};
     lis_next_run := next_run;
     event_queue := PyQueue.empty;
     pc := InWorkerLoop |}.

(** The identifiers an event put on the queue when it was a listener
    turn: what the queue holds beyond its former length. *)
Definition enqueued_by (ev : event) (s s' : t) : list string :=
  match ev with
  | ListenerTurn _ _ =>
      drop (length (PyQueue.items (event_queue s))) (PyQueue.items (event_queue s'))
  | _ => []
  end.

(** All the identifiers the listener put on the queue during a run. *)
Fixpoint listener_puts (evs : list event) (s : t) : list string :=
  match evs with
  | [] => []
  | ev :: rest =>
      match exec ev s with
      | Some s' => enqueued_by ev s s' ++ listener_puts rest s'
      | None => []
      end
  end.

End System.


(** ** Which stage entry points carry the retry decorator *)
Module Stage.

(** The functions the orchestrator's four stages go through.  The e-mail
    stage's [send_emails] is itself undecorated and calls the decorated
    [send_email] once per recipient. *)
Inductive entry : Type :=
| FetchData          (* fetcher.py:57, @retry *)
| GetSummary         (* assistant_bridge.py:24, @retry *)
| UpdateDriveDocs    (* drive_documenter.py:143, no decorator *)
| SendEmail.         (* email_dispatcher.py:45, @retry *)

Definition decorated (s : entry) : bool :=
  match s with
  | FetchData | GetSummary | SendEmail => true
  | UpdateDriveDocs => false
  end.

(** A call through the entry point [s] whose body behaves as [fn] run
    after run. *)
Definition invoke {A} (s : entry) (fn : nat -> outcome A) : Tenacity.run A :=
  if decorated s then Tenacity.retrying Tenacity.stage_policy fn
  else Tenacity.undecorated fn.

(** [drive_documenter.update_drive_docs(..)] as the orchestrator calls it,
    the Drive service being in state [states k] at the [k]-th run. *)
Definition update_drive_docs (account_name summary timestamp : string)
           (states : nat -> Drive.t) : Tenacity.run (string * string) :=
  invoke UpdateDriveDocs
    (fun k => fst (Drive.update_drive_docs account_name summary timestamp (states k))).

(** The behaviour "retry on exceptions only, at most three runs, waits
    between 4 and 10": the first run that returns within the first three
    ends the call with its value; three raising runs end it with an
    exception. *)
Definition retries_three_times {A} (fn : nat -> outcome A) (r : Tenacity.run A) : Prop :=
  (forall k v, (k < 3)%nat ->
     (forall j, (j < k)%nat -> is_raise (fn j) = true) ->
     fn k = Returns v ->
     Tenacity.result r = Returns v /\ Tenacity.calls r = S k
     /\ length (Tenacity.sleeps r) = k)
  /\ ((forall j, (j < 3)%nat -> is_raise (fn j) = true) ->
      is_raise (Tenacity.result r) = true /\ Tenacity.calls r = 3%nat
      /\ length (Tenacity.sleeps r) = 2%nat)
  /\ Forall (fun w => 4 <= w <= 10) (Tenacity.sleeps r).

End Stage.

(** * Predicates and sample data of the statements *)

Local Open Scope list_scope.

(** A Drive service that is down for the first run of a call and up,
    and still empty, from the second run on. *)
Definition drive_down_then_up (k : nat) : Drive.t :=
  match k with
  | O => {| Drive.up := false; Drive.files := []; Drive.docs := ∅;
            Drive.next_id := 0%nat |}
  | S _ => Drive.empty
  end.

(** The body of [update_drive_docs] for the account Acme, run after run,
    against that service: the first run raises, the second would return
    the two links. *)
Definition acme_document_runs (k : nat) : outcome (string * string) :=
  fst (Drive.update_drive_docs "Acme" "Summary text" "2025-03-01 07:00"
         (drive_down_then_up k)).


(** The record [fetch_data] builds from a row: every column copied. *)
Definition data_of_row (row : Fetcher.Row) : Fetcher.TranscriptData :=
  {| Fetcher.transcript_id := Fetcher.r_transcript_id row;
     Fetcher.account_name := Fetcher.r_account_name row;
     Fetcher.account_number := Fetcher.r_account_number row;
     Fetcher.speaker_name := Fetcher.r_speaker_name row;
     Fetcher.speaker_email := Fetcher.r_speaker_email row;
     Fetcher.cs_email := Fetcher.r_cs_email row;
     Fetcher.am_email := Fetcher.r_am_email row;
     Fetcher.transcript_text := Fetcher.r_transcript_text row |}.

(** How a call of [process_transcript] that ends as FAILED at a stage
    leaves the orchestrator: it returns [False], the queue is untouched,
    the lines it logged hold exactly one FAILED line (with the stage's
    module) and no PIPELINE_ERROR line, the stage's error counter went up
    by one and no other counter moved, and the in-flight gauge is back. *)
Definition ended_failed (transcript_id status module error_type : string)
           (o : Orchestrator.t) (q : PyQueue.t)
           (res : bool * Orchestrator.t * PyQueue.t) : Prop :=
  let '(b, o', q') := res in
  b = false /\ q' = q
  /\ (exists new,
        Orchestrator.json_log o' = Orchestrator.json_log o ++ new
        /\ Orchestrator.failed_entries new
           = [{| Orchestrator.le_transcript_id := transcript_id;
                 Orchestrator.le_status := status;
                 Orchestrator.le_module := Some module;
                 Orchestrator.le_error := None;
                 Orchestrator.le_extra := [] |}]
        /\ Orchestrator.entries_with_status "PIPELINE_ERROR" new = [])
  /\ Orchestrator.error_count o' module error_type
     = S (Orchestrator.error_count o module error_type)
  /\ (forall m e, (module, error_type) <> (m, e) ->
        Orchestrator.error_count o' m e = Orchestrator.error_count o m e)
  /\ Orchestrator.success_counter o' = Orchestrator.success_counter o
  /\ Orchestrator.in_flight_gauge o' = Orchestrator.in_flight_gauge o.

(** Stage behaviour for the scenario "T-200": fetch finds nothing. *)
Definition stages_fetch_none : Orchestrator.Stages :=
  {| Orchestrator.fetch_data := fun _ => Returns None;
     Orchestrator.get_summary := fun _ => Returns None;
     Orchestrator.update_drive_docs := fun _ _ => Raises (Error "unused");
     Orchestrator.send_emails := fun _ _ _ => Raises (Error "unused");
     Orchestrator.duration_us := 0 |}.

(** Stage behaviour for an item whose fetch raises every time. *)
Definition stages_fetch_raises : Orchestrator.Stages :=
  {| Orchestrator.fetch_data := fun _ => Raises (RetryError (Error "connection reset"));
     Orchestrator.get_summary := fun _ => Returns None;
     Orchestrator.update_drive_docs := fun _ _ => Raises (Error "unused");
     Orchestrator.send_emails := fun _ _ _ => Raises (Error "unused");
     Orchestrator.duration_us := 0 |}.

Definition started_line (tid : string) (attempt : Z) : Orchestrator.LogEntry :=
  {| Orchestrator.le_transcript_id := tid;
     Orchestrator.le_status := "PROCESSING_STARTED";
     Orchestrator.le_module := None;
     Orchestrator.le_error := None;
     Orchestrator.le_extra := [("attempt", Orchestrator.LInt attempt)] |}.

Definition error_line (tid : string) (attempt : Z) (msg : string)
  : Orchestrator.LogEntry :=
  {| Orchestrator.le_transcript_id := tid;
     Orchestrator.le_status := "PIPELINE_ERROR";
     Orchestrator.le_module := None;
     Orchestrator.le_error := if str_truthy msg then Some msg else None;
     Orchestrator.le_extra := [("attempt", Orchestrator.LInt attempt)] |}.

Definition final_line (tid : string) (attempt : Z) : Orchestrator.LogEntry :=
  {| Orchestrator.le_transcript_id := tid;
     Orchestrator.le_status := "PIPELINE_FAILED_FINAL";
     Orchestrator.le_module := None;
     Orchestrator.le_error := None;
     Orchestrator.le_extra := [("max_attempts", Orchestrator.LInt attempt)] |}.

(** The scenario "T-100": a fully populated row for the account Acme, and
    four stages that succeed. *)
Definition row_acme : Fetcher.Row :=
  {| Fetcher.r_transcript_id := Some "T-100";
     Fetcher.r_account_name := Some "Acme";
     Fetcher.r_account_number := Some "A-1";
     Fetcher.r_speaker_name := Some "Bo";
     Fetcher.r_speaker_email := Some "bo@acme.test";
     Fetcher.r_cs_email := Some "cs@acme.test";
     Fetcher.r_am_email := Some "am@acme.test";
     Fetcher.r_transcript_text := Some "hello" |}.

Definition stages_t100 : Orchestrator.Stages :=
  {| Orchestrator.fetch_data := fun _ => Returns (Some (data_of_row row_acme));
     Orchestrator.get_summary := fun _ => Returns (Some "Summary text");
     Orchestrator.update_drive_docs := fun _ _ => Returns ("docA", "docB");
     Orchestrator.send_emails := fun _ _ _ =>
       Returns ("EMAIL_SENT_cs@acme.test", "EMAIL_SENT_am@acme.test");
     Orchestrator.duration_us := 1500000 |}.

(** A response of three records, the middle one without identifier. *)
Definition row_id (tid : string) : gmap string Listener.jval :=
  {[ "transcript_id" := Listener.JStr tid ]}.

Definition row_no_id : gmap string Listener.jval :=
  {[ "call_id" := Listener.JStr "c-7" ]}.


(** The listener's first scheduled run: day 739001 at 07:00. *)
Definition first_run : Listener.datetime :=
  {| Listener.ordinal := 739001; Listener.micros := 25200000000 |}.

(** A signal; then the listener's turn at its scheduled time, Gong
    answering with one new transcript; then the worker loop ends and
    [stop()] begins. *)
Definition shutdown_trace : list System.event :=
  [ System.Signal;
    System.ListenerTurn first_run
      (Listener.GongJson (Some [{[ "transcript_id" := Listener.JStr "T-9" ]}]));
    System.LeaveLoop ].


(** The first file a listing query returns has identifier [i]. *)
Definition found (nm mime : string) (parent : option nat) (d : Drive.t) (i : nat) : Prop :=
  head (map Drive.id (List.filter (Drive.matches nm mime parent) (Drive.files d)))
  = Some i.

(** The file [files().create] adds. *)
Definition created_file (i : nat) (nm mime : string) (parent : option nat) : Drive.File :=
  {| Drive.id := i; Drive.name := nm; Drive.mimeType := mime;
     Drive.parents := match parent with Some p => [p] | None => [] end |}.

(** The Drive after a document's text has been set. *)
Definition with_doc (d : Drive.t) (doc_id : nat) (text : string) : Drive.t :=
  {| Drive.up := Drive.up d; Drive.files := Drive.files d;
     Drive.docs := <[doc_id := text]> (Drive.docs d);
     Drive.next_id := Drive.next_id d |}.


(** Two calls for the account Acme on an empty Drive. *)
Definition acme_first : outcome (string * string) * Drive.t :=
  Drive.update_drive_docs "Acme" "First summary" "2025-03-01 07:00" Drive.empty.

Definition acme_second : outcome (string * string) * Drive.t :=
  Drive.update_drive_docs "Acme" "Second summary" "2025-03-02 07:00" (snd acme_first).

(** ** Predicates of the further properties *)

(** A call that succeeds within the three runs the stage policy allows:
    some run among the first three does not raise, and every run before
    it does. *)
Definition succeeds_within_three {A} (fn : nat -> outcome A) : Prop :=
  exists k, (k < 3)%nat /\ is_raise (fn k) = false
            /\ forall j, (j < k)%nat -> is_raise (fn j) = true.

(** A run that is in progress at the first poll and completed at the
    second, with a response that has blanks around it. *)
Definition env_completes_second : Assistant.Env :=
  {| Assistant.thread_create := Returns "thread_1";
     Assistant.message_create := Returns tt;
     Assistant.run_create := Returns "run_1";
     Assistant.run_retrieve := fun i => match i with
                                        | O => Returns "in_progress"
                                        | S _ => Returns "completed"
                                        end;
     Assistant.retrieve_ms := fun _ => 300%N;
     Assistant.messages_list := Returns (Some "  Summary text ") |}.


(** The identifiers of a discovery response that the listener looks at:
    the truthy [transcript_id] values, in response order. *)
Definition truthy_ids (rows : list (gmap string Listener.jval)) : list string :=
  omap (fun row =>
          match Listener.row_get row "transcript_id" with
          | Some t => if str_truthy t then Some t else None
          | None => None
          end) rows.

(** 14:00 on day 739000, with the next run due on day 739001 at 07:00 and
    the default idle sleep of 300 seconds. *)
Definition afternoon : Listener.datetime :=
  {| Listener.ordinal := 739000; Listener.micros := 50400000000 |}.

Definition waiting_listener : Listener.loop_state :=
  {| Listener.self :=
       {| Listener.processed_ids := ∅;
          Listener.run_hour := Listener.default_run_hour;
          Listener.run_minute := Listener.default_run_minute;
          Listener.idle_sleep_seconds := Listener.default_idle_sleep_seconds;
          Listener.running := true |};
     Listener.next_run := first_run;
     Listener.event_queue := PyQueue.empty |}.



(** * Properties *)

(** A text is truthy exactly when it is not empty. *)
Lemma str_truthy_true (s : string) : str_truthy s = true <-> s <> "".
Proof.
  unfold str_truthy. rewrite negb_true_iff. split.
  - intros H ->. discriminate.
  - intros H. destruct s; [congruence | reflexivity].
Qed.

(** ** The retry decorator *)
Section TenacityFacts.

Context {A : Type}.
Variable p : Tenacity.policy.
Variable fn : nat -> outcome A.

Lemma retry_from_returns (remaining n : nat) (slept : list Z) (k : nat) (v : A) :
  (k <= remaining)%nat ->
  (forall j, (j < k)%nat -> is_raise (fn (n + j)) = true) ->
  fn (n + k)%nat = Returns v ->
  let r := Tenacity.retry_from p fn remaining (S n) slept in
  Tenacity.result r = Returns v /\ Tenacity.calls r = S (n + k)
  /\ exists more, Tenacity.sleeps r = slept ++ more /\ length more = k
       /\ Forall (fun w => exists a, w = Tenacity.wait_exponential p a) more.
Proof.
  revert n slept k. induction remaining as [|rem IH]; intros n slept k Hk Hraise Hret.
  - assert (k = 0)%nat as -> by lia. rewrite Nat.add_0_r in *.
    simpl. rewrite Hret. simpl. repeat split; auto.
    exists []. rewrite app_nil_r. repeat split; auto.
  - destruct k as [|k].
    + rewrite Nat.add_0_r in *. simpl. rewrite Hret. simpl. repeat split; auto.
      exists []. rewrite app_nil_r. repeat split; auto.
    + simpl. specialize (Hraise 0%nat ltac:(lia)) as H0. rewrite Nat.add_0_r in H0.
      destruct (fn n) as [a|e]; [discriminate|].
      destruct (IH (S n) (slept ++ [Tenacity.wait_exponential p (S n)]) k) as (Hr & Hc & more & Hs & Hl & Hf).
      * lia.
      * intros j Hj. replace (S n + j)%nat with (n + S j)%nat by lia. apply Hraise. lia.
      * replace (S n + k)%nat with (n + S k)%nat by lia. exact Hret.
      * repeat split.
        -- exact Hr.
        -- rewrite Hc. lia.
        -- exists (Tenacity.wait_exponential p (S n) :: more). repeat split.
           ++ rewrite Hs, <- app_assoc. reflexivity.
           ++ simpl. lia.
           ++ constructor; eauto.
Qed.

Lemma retry_from_exhausted (remaining n : nat) (slept : list Z) :
  (forall j, (j <= remaining)%nat -> is_raise (fn (n + j)) = true) ->
  let r := Tenacity.retry_from p fn remaining (S n) slept in
  is_raise (Tenacity.result r) = true /\ Tenacity.calls r = S (n + remaining)
  /\ exists more, Tenacity.sleeps r = slept ++ more /\ length more = remaining
       /\ Forall (fun w => exists a, w = Tenacity.wait_exponential p a) more.
Proof.
  revert n slept. induction remaining as [|rem IH]; intros n slept Hraise.
  - specialize (Hraise 0%nat ltac:(lia)). rewrite Nat.add_0_r in *.
    simpl. destruct (fn n); [discriminate|]. simpl. repeat split; auto.
    exists []. rewrite app_nil_r. repeat split; auto.
  - simpl. specialize (Hraise 0%nat ltac:(lia)) as H0. rewrite Nat.add_0_r in H0.
    destruct (fn n) as [a|e]; [discriminate|].
    destruct (IH (S n) (slept ++ [Tenacity.wait_exponential p (S n)])) as (Hr & Hc & more & Hs & Hl & Hf).
    + intros j Hj. replace (S n + j)%nat with (n + S j)%nat by lia. apply Hraise. lia.
    + repeat split.
      * exact Hr.
      * rewrite Hc. lia.
      * exists (Tenacity.wait_exponential p (S n) :: more). repeat split.
        -- rewrite Hs, <- app_assoc. reflexivity.
        -- simpl. lia.
        -- constructor; eauto.
Qed.

(** A value that comes out of a decorated call was returned by one of the
    runs of the body. *)
Lemma retry_from_returns_inv (remaining n : nat) (slept : list Z) (v : A) :
  Tenacity.result (Tenacity.retry_from p fn remaining n slept) = Returns v ->
  exists k, fn k = Returns v.
Proof.
  revert n slept. induction remaining as [|rem IH]; intros n slept; simpl.
  - destruct (fn (Nat.pred n)) eqn:E; simpl; intros H; [|discriminate].
    exists (Nat.pred n). congruence.
  - destruct (fn (Nat.pred n)) eqn:E; simpl; intros H.
    + exists (Nat.pred n). congruence.
    + eapply IH. exact H.
Qed.

Lemma retry_from_sleeps (remaining n : nat) (slept : list Z) :
  exists more,
    Tenacity.sleeps (Tenacity.retry_from p fn remaining n slept) = slept ++ more
    /\ Forall (fun w => exists a, w = Tenacity.wait_exponential p a) more.
Proof.
  revert n slept. induction remaining as [|rem IH]; intros n slept; simpl.
  - destruct (fn (Nat.pred n)); simpl; exists []; rewrite app_nil_r; auto.
  - destruct (fn (Nat.pred n)); simpl.
    + exists []. rewrite app_nil_r. auto.
    + destruct (IH (S n) (slept ++ [Tenacity.wait_exponential p n])) as (more & Hs & Hf).
      exists (Tenacity.wait_exponential p n :: more). split.
      * rewrite Hs, <- app_assoc. reflexivity.
      * constructor; eauto.
Qed.

End TenacityFacts.

(** Every wait of the stage policy lies between 4 and 10. *)
Lemma stage_wait_bounds (a : nat) :
  4 <= Tenacity.wait_exponential Tenacity.stage_policy a <= 10.
Proof. unfold Tenacity.wait_exponential. simpl. lia. Qed.

Lemma retrying_returns {A} (fn : nat -> outcome A) (k : nat) (v : A) :
  (k < 3)%nat ->
  (forall j, (j < k)%nat -> is_raise (fn j) = true) ->
  fn k = Returns v ->
  let r := Tenacity.retrying Tenacity.stage_policy fn in
  Tenacity.result r = Returns v /\ Tenacity.calls r = S k
  /\ length (Tenacity.sleeps r) = k.
Proof.
  intros Hk Hraise Hret. unfold Tenacity.retrying. simpl Nat.pred.
  destruct (retry_from_returns Tenacity.stage_policy fn 2 0 [] k v)
    as (Hr & Hc & more & Hs & Hl & _); auto; [lia|].
  cbv zeta. rewrite Hr, Hc, Hs. simpl. auto.
Qed.

Lemma retrying_returns_inv {A} (fn : nat -> outcome A) (v : A) :
  Tenacity.result (Tenacity.retrying Tenacity.stage_policy fn) = Returns v ->
  exists k, fn k = Returns v.
Proof. apply retry_from_returns_inv. Qed.

Lemma retrying_contract {A} (fn : nat -> outcome A) :
  Stage.retries_three_times fn (Tenacity.retrying Tenacity.stage_policy fn).
Proof.
  split; [|split].
  - intros k v Hk Hraise Hret. apply retrying_returns; auto.
  - intros Hraise. unfold Tenacity.retrying. simpl Nat.pred.
    destruct (retry_from_exhausted Tenacity.stage_policy fn 2 0 [])
      as (Hr & Hc & more & Hs & Hl & _).
    { intros j Hj. apply Hraise. lia. }
    cbv zeta in *. rewrite Hr, Hc, Hs. simpl. auto.
  - unfold Tenacity.retrying.
    destruct (retry_from_sleeps Tenacity.stage_policy fn
                (Nat.pred (Tenacity.max_attempt_number Tenacity.stage_policy)) 1 [])
      as (more & Hs & Hf).
    rewrite Hs. simpl. eapply Forall_impl; [exact Hf|].
    intros w [a ->]. apply stage_wait_bounds.
Qed.

(** ** Stage wrappers (C8) *)

(** The decorated entry points are the decorator applied to their bodies. *)
Lemma fetch_data_is_decorated (replies : nat -> Fetcher.db_reply) :
  Fetcher.fetch_data replies
  = Stage.invoke Stage.FetchData (fun k => Fetcher.fetch_data_body (replies k)).
Proof. reflexivity. Qed.

Lemma get_summary_is_decorated (timeout : Z) (envs : nat -> Assistant.Env) :
  Assistant.get_summary timeout envs
  = Stage.invoke Stage.GetSummary (fun k => Assistant.get_summary_body timeout (envs k)).
Proof. reflexivity. Qed.

Lemma send_email_is_decorated (smtp : nat -> outcome unit) (to_email : string) :
  Email.send_email smtp to_email
  = Stage.invoke Stage.SendEmail (fun k => Email.send_email_body (smtp k) to_email).
Proof. reflexivity. Qed.

(** C8, as stated, fails: the document stage's [update_drive_docs] has no
    retry wrapper.  With the Drive service down during the first run and
    up afterwards, a second run would return the links, but the call ends
    with the first run's exception: "every stage wrapper retries up to 3
    attempts" does not hold for it. *)
Lemma document_stage_does_not_retry :
  ~ (forall s : Stage.entry,
       Stage.retries_three_times acme_document_runs
         (Stage.invoke s acme_document_runs)).
Proof.
  intros H. destruct (H Stage.UpdateDriveDocs) as (Hret & _).
  destruct (Hret 1%nat ("https://docs.google.com/document/d/2/edit",
                        "https://docs.google.com/document/d/3/edit"))
    as (Hr & _).
  - lia.
  - intros j Hj. assert (j = 0)%nat as -> by lia. reflexivity.
  - vm_compute. reflexivity.
  - vm_compute in Hr. discriminate.
Qed.

(** The document stage as the orchestrator calls it: one run, whose
    outcome is the call's. *)
Lemma update_drive_docs_runs_once (account_name summary timestamp : string)
      (states : nat -> Drive.t) :
  let r := Stage.update_drive_docs account_name summary timestamp states in
  Tenacity.calls r = 1%nat
  /\ Tenacity.sleeps r = []
  /\ Tenacity.result r
     = fst (Drive.update_drive_docs account_name summary timestamp (states 0%nat)).
Proof. repeat split. Qed.

(** C8, amended: the decorated entry points ([fetch_data], [get_summary],
    [send_email]) retry their body only when it raises, at most three runs
    in all with waits between 4 and 10; a returned value, [None] included,
    ends the call at once; three raising runs end it with an exception.
    The undecorated [update_drive_docs] runs its body exactly once and
    hands on whatever that run returned or raised. *)
Theorem decorated_stages_retry_three_times
        {A : Type} (s : Stage.entry) (fn : nat -> outcome A) :
  (Stage.decorated s = true ->
     Stage.retries_three_times fn (Stage.invoke s fn))
  /\ (Stage.decorated s = false ->
      s = Stage.UpdateDriveDocs
      /\ Tenacity.result (Stage.invoke s fn) = fn 0%nat
      /\ Tenacity.calls (Stage.invoke s fn) = 1%nat
      /\ Tenacity.sleeps (Stage.invoke s fn) = []).
Proof.
  split; intros Hd.
  - unfold Stage.invoke. rewrite Hd. apply retrying_contract.
  - destruct s; try discriminate. unfold Stage.invoke. simpl. auto.
Qed.

(** C8 at the fetch stage with Snowflake finding no row: the decorated
    call follows the retry behaviour (here: [None] after one run). *)
Lemma decorated_stages_retry_three_times_witness :
  Stage.decorated Stage.FetchData = true
  /\ Stage.retries_three_times
       (fun k => Fetcher.fetch_data_body (Fetcher.DbFetched None))
       (Stage.invoke Stage.FetchData
          (fun k => Fetcher.fetch_data_body (Fetcher.DbFetched None))).
Proof.
  split; [reflexivity|].
  apply (proj1 (decorated_stages_retry_three_times Stage.FetchData
                  (fun k => Fetcher.fetch_data_body (Fetcher.DbFetched None)))).
  reflexivity.
Defined.

(** The waits of a decorated call that fails three times: 4 and 4. *)
Example fetch_three_failures :
  let r := Fetcher.fetch_data (fun _ => Fetcher.DbRaises (Error "timeout")) in
  Tenacity.result r = Raises (RetryError (Error "timeout"))
  /\ Tenacity.calls r = 3%nat /\ Tenacity.sleeps r = [4; 4].
Proof. vm_compute. auto. Qed.

(** ** Fetch validation (C4) *)

Lemma py_all_critical (row : Fetcher.Row) :
  Fetcher.py_all (Fetcher.critical_fields row) = true <->
  opt_truthy (Fetcher.r_account_name row) = true
  /\ opt_truthy (Fetcher.r_account_number row) = true
  /\ opt_truthy (Fetcher.r_speaker_name row) = true
  /\ opt_truthy (Fetcher.r_speaker_email row) = true
  /\ opt_truthy (Fetcher.r_cs_email row) = true
  /\ opt_truthy (Fetcher.r_am_email row) = true
  /\ opt_truthy (Fetcher.r_transcript_text row) = true.
Proof.
  unfold Fetcher.py_all, Fetcher.critical_fields. simpl.
  rewrite !andb_true_iff. tauto.
Qed.





(** ** The pipeline runner (C3, C1) *)

(** Error counters: [inc_error] raises one label pair by one and leaves
    the others. *)
Lemma error_count_inc (o : Orchestrator.t) (m e m' e' : string) :
  Orchestrator.error_count (Orchestrator.inc_error m e o) m' e'
  = if decide ((m, e) = (m', e')) then S (Orchestrator.error_count o m e)
    else Orchestrator.error_count o m' e'.
Proof.
  unfold Orchestrator.error_count, Orchestrator.inc_error. simpl.
  rewrite lookup_insert. destruct (decide ((m, e) = (m', e'))); reflexivity.
Qed.

(** Logging and the gauges leave the error counters alone. *)
Lemma error_count_log (o : Orchestrator.t) (tid status : string)
      (module error : option string) (kw : list (string * Orchestrator.logval))
      (m e : string) :
  Orchestrator.error_count (Orchestrator.log_structured tid status module error kw o) m e
  = Orchestrator.error_count o m e.
Proof. reflexivity. Qed.

Lemma error_count_in_flight (o : Orchestrator.t) (g : Z) (m e : string) :
  Orchestrator.error_count (Orchestrator.set_in_flight_gauge g o) m e
  = Orchestrator.error_count o m e.
Proof. reflexivity. Qed.

(** C3: a [None] from the fetch stage, or from the summarize stage after a
    successful fetch, ends the item's processing as FAILED: one FAILED log
    line (FAILED_FETCH, resp. FAILED_OAI), the error counter of that module
    raised by one (fetcher/no_data, resp. assistant/no_summary), nothing put
    back on the queue. *)
Theorem none_result_fails_without_requeue
        (st : Orchestrator.Stages) (transcript_id : string) (attempt : Z)
        (o : Orchestrator.t) (q : PyQueue.t) :
  (Orchestrator.fetch_data st transcript_id = Returns None ->
   ended_failed transcript_id "FAILED_FETCH" "fetcher" "no_data" o q
     (Orchestrator.process_transcript st transcript_id attempt o q))
  /\ (forall data,
        Orchestrator.fetch_data st transcript_id = Returns (Some data) ->
        Orchestrator.get_summary st data = Returns None ->
        ended_failed transcript_id "FAILED_OAI" "assistant" "no_summary" o q
          (Orchestrator.process_transcript st transcript_id attempt o q)).
Proof.
  split.
  - intros Hf. unfold Orchestrator.process_transcript, Orchestrator.try_block.
    rewrite Hf. cbv zeta. unfold ended_failed.
    repeat split.
    + eexists. split; [simpl; rewrite <- !app_assoc; reflexivity|]. split; reflexivity.
    + rewrite ?error_count_in_flight, ?error_count_log, error_count_inc,
        ?error_count_log, ?error_count_in_flight.
      rewrite decide_True by reflexivity. reflexivity.
    + intros m e Hne.
      rewrite ?error_count_in_flight, ?error_count_log, error_count_inc,
        ?error_count_log, ?error_count_in_flight.
      rewrite decide_False by exact Hne. reflexivity.
    + simpl. lia.
  - intros data Hf Hs. unfold Orchestrator.process_transcript, Orchestrator.try_block.
    rewrite Hf, Hs. cbv zeta. unfold ended_failed.
    repeat split.
    + eexists. split; [simpl; rewrite <- !app_assoc; reflexivity|]. split; reflexivity.
    + rewrite ?error_count_in_flight, ?error_count_log, error_count_inc,
        ?error_count_log, ?error_count_in_flight.
      rewrite decide_True by reflexivity. reflexivity.
    + intros m e Hne.
      rewrite ?error_count_in_flight, ?error_count_log, error_count_inc,
        ?error_count_log, ?error_count_in_flight.
      rewrite decide_False by exact Hne. reflexivity.
    + simpl. lia.
Qed.

(** C3 at the scenario T-200: fetch finds nothing, on a fresh
    orchestrator and an empty queue. *)
Lemma none_result_fails_without_requeue_witness :
  ended_failed "T-200" "FAILED_FETCH" "fetcher" "no_data"
    (Orchestrator.init Orchestrator.default_max_retries) PyQueue.empty
    (Orchestrator.process_transcript stages_fetch_none "T-200" 1
       (Orchestrator.init Orchestrator.default_max_retries) PyQueue.empty).
Proof.
  apply (proj1 (none_result_fails_without_requeue stages_fetch_none "T-200" 1
                  (Orchestrator.init Orchestrator.default_max_retries)
                  PyQueue.empty)).
  reflexivity.
Defined.

(** *** Requeue on an exception *)

(** An exception in a call of [process_transcript] made with an [attempt]
    below [max_retries]: the call returns [False], logs one PIPELINE_ERROR
    line and nothing after it, and puts the identifier back on the queue
    once. *)
Theorem exception_below_max_requeues_once
        (st : Orchestrator.Stages) (tid : string) (attempt : Z)
        (o o1 : Orchestrator.t) (q : PyQueue.t) (e : exn) :
  Orchestrator.try_block st tid attempt o = (Raises e, o1) ->
  attempt < Orchestrator.max_retries o1 ->
  exists o',
    Orchestrator.process_transcript st tid attempt o q = (false, o', PyQueue.put tid q)
    /\ Orchestrator.json_log o'
       = Orchestrator.json_log o1 ++ [error_line tid attempt (exn_str e)]
    /\ Orchestrator.error_count o' "orchestrator" "general"
       = S (Orchestrator.error_count o1 "orchestrator" "general").
Proof.
  intros Ht Hlt. unfold Orchestrator.process_transcript. rewrite Ht.
  unfold Orchestrator.except_block, Orchestrator.should_retry. cbv zeta. simpl.
  apply Z.ltb_lt in Hlt. rewrite Hlt. eexists. split; [reflexivity|].
  split; [reflexivity|].
  rewrite ?error_count_in_flight, error_count_inc, decide_True by reflexivity.
  reflexivity.
Qed.

(** The first attempt of T-1 with [max_retries = 3]: one requeue. *)
Lemma exception_below_max_requeues_once_witness :
  exists o',
    Orchestrator.process_transcript stages_fetch_raises "T-1" 1
      (Orchestrator.init Orchestrator.default_max_retries) PyQueue.empty
    = (false, o', PyQueue.put "T-1" PyQueue.empty)
    /\ Orchestrator.json_log o'
       = [started_line "T-1" 1; error_line "T-1" 1 "RetryError"].
Proof.
  destruct (exception_below_max_requeues_once stages_fetch_raises "T-1" 1
              (Orchestrator.init Orchestrator.default_max_retries)
              (snd (Orchestrator.try_block stages_fetch_raises "T-1" 1
                      (Orchestrator.init Orchestrator.default_max_retries)))
              PyQueue.empty (RetryError (Error "connection reset")))
    as (o' & Hp & Hl & _).
  - reflexivity.
  - vm_compute. reflexivity.
  - exists o'. split; [exact Hp | exact Hl].
Defined.

(** An exception in a call made with an [attempt] that has reached
    [max_retries]: the call returns [False], puts nothing on the queue, and
    logs PIPELINE_ERROR followed by one PIPELINE_FAILED_FINAL line. *)
Theorem exception_at_max_is_final
        (st : Orchestrator.Stages) (tid : string) (attempt : Z)
        (o o1 : Orchestrator.t) (q : PyQueue.t) (e : exn) :
  Orchestrator.try_block st tid attempt o = (Raises e, o1) ->
  Orchestrator.max_retries o1 <= attempt ->
  exists o',
    Orchestrator.process_transcript st tid attempt o q = (false, o', q)
    /\ Orchestrator.json_log o'
       = Orchestrator.json_log o1
         ++ [error_line tid attempt (exn_str e); final_line tid attempt].
Proof.
  intros Ht Hge. unfold Orchestrator.process_transcript. rewrite Ht.
  unfold Orchestrator.except_block, Orchestrator.should_retry. cbv zeta. simpl.
  apply Z.ltb_ge in Hge. rewrite Hge. eexists. split; [reflexivity|].
  simpl. rewrite <- app_assoc. reflexivity.
Qed.

(** The third attempt of T-1 with [max_retries = 3]: final failure. *)
Lemma exception_at_max_is_final_witness :
  exists o',
    Orchestrator.process_transcript stages_fetch_raises "T-1" 3
      (Orchestrator.init Orchestrator.default_max_retries) PyQueue.empty
    = (false, o', PyQueue.empty)
    /\ Orchestrator.json_log o'
       = [started_line "T-1" 3; error_line "T-1" 3 "RetryError"; final_line "T-1" 3].
Proof.
  apply (exception_at_max_is_final stages_fetch_raises "T-1" 3
           (Orchestrator.init Orchestrator.default_max_retries)
           (snd (Orchestrator.try_block stages_fetch_raises "T-1" 3
                   (Orchestrator.init Orchestrator.default_max_retries)))
           PyQueue.empty (RetryError (Error "connection reset"))).
  - reflexivity.
  - vm_compute. discriminate.
Defined.

(** A call in which all four stages return: it returns [True], leaves the
    queue alone, logs the six lines of a successful run in order, counts
    one success with the measured duration, and touches no error counter. *)
Theorem all_stages_succeed
        (st : Orchestrator.Stages) (tid : string) (attempt : Z)
        (o : Orchestrator.t) (q : PyQueue.t)
        (data : Fetcher.TranscriptData) (summary : string)
        (links status : string * string) :
  Orchestrator.fetch_data st tid = Returns (Some data) ->
  Orchestrator.get_summary st data = Returns (Some summary) ->
  summary <> "" ->
  Orchestrator.update_drive_docs st (Fetcher.account_name data) summary = Returns links ->
  Orchestrator.send_emails st data summary links = Returns status ->
  exists o' new,
    Orchestrator.process_transcript st tid attempt o q = (true, o', q)
    /\ Orchestrator.json_log o' = Orchestrator.json_log o ++ new
    /\ map Orchestrator.le_status new
       = ["PROCESSING_STARTED"; "FETCH_SUCCESS"; "SUMMARY_SUCCESS";
          "DRIVE_SUCCESS"; "EMAIL_SUCCESS"; "PIPELINE_SUCCESS"]
    /\ Orchestrator.success_counter o' = S (Orchestrator.success_counter o)
    /\ Orchestrator.processing_time o'
       = Orchestrator.processing_time o ++ [Orchestrator.duration_us st]
    /\ Orchestrator.error_counter o' = Orchestrator.error_counter o
    /\ Orchestrator.in_flight_gauge o' = Orchestrator.in_flight_gauge o.
Proof.
  intros Hf Hs Hne Hd He.
  unfold Orchestrator.process_transcript, Orchestrator.try_block.
  rewrite Hf, Hs. cbv zeta.
  assert (Ht : opt_truthy (Some summary) = true) by (apply str_truthy_true; exact Hne).
  rewrite Ht. simpl negb. cbv iota. simpl default. rewrite Hd, He.
  eexists. eexists. split; [reflexivity|].
  split; [simpl; rewrite <- !app_assoc; reflexivity|].
  split; [reflexivity|]. split; [reflexivity|]. split; [reflexivity|].
  split; [reflexivity|]. simpl. lia.
Qed.

(** The scenario T-100 on a fresh orchestrator. *)
Lemma all_stages_succeed_witness :
  exists o' new,
    Orchestrator.process_transcript stages_t100 "T-100" 1
      (Orchestrator.init Orchestrator.default_max_retries) PyQueue.empty
    = (true, o', PyQueue.empty)
    /\ Orchestrator.json_log o' = new
    /\ map Orchestrator.le_status new
       = ["PROCESSING_STARTED"; "FETCH_SUCCESS"; "SUMMARY_SUCCESS";
          "DRIVE_SUCCESS"; "EMAIL_SUCCESS"; "PIPELINE_SUCCESS"]
    /\ Orchestrator.success_counter o' = 1%nat
    /\ Orchestrator.error_counter o' = ∅.
Proof.
  destruct (all_stages_succeed stages_t100 "T-100" 1
              (Orchestrator.init Orchestrator.default_max_retries) PyQueue.empty
              (data_of_row row_acme) "Summary text" ("docA", "docB")
              ("EMAIL_SENT_cs@acme.test", "EMAIL_SENT_am@acme.test")
              eq_refl eq_refl ltac:(discriminate) eq_refl eq_refl)
    as (o' & new & Hp & Hl & Hs & Hc & _ & He & _).
  exists o', new. auto.
Defined.

(** One worker turn on an item whose fetch raises: the item is taken,
    processed with [attempt = 1], put back, and marked done.  The queue is
    as it was, and so are [running] and [max_retries]. *)
Lemma worker_turn_requeues_at_attempt_1
      (st : Orchestrator.Stages) (tid : string) (e : exn)
      (o : Orchestrator.t) (rest : list string) (u : nat) :
  Orchestrator.fetch_data st tid = Raises e ->
  1 < Orchestrator.max_retries o ->
  let q := {| PyQueue.items := tid :: rest; PyQueue.unfinished_tasks := S u |} in
  let r := Orchestrator.worker_turn st o q in
  snd r = {| PyQueue.items := rest ++ [tid]; PyQueue.unfinished_tasks := S u |}
  /\ Orchestrator.running (fst r) = Orchestrator.running o
  /\ Orchestrator.max_retries (fst r) = Orchestrator.max_retries o
  /\ Orchestrator.json_log (fst r)
     = Orchestrator.json_log o
       ++ [started_line tid 1; error_line tid 1 (exn_str e)].
Proof.
  intros Hf Hlt q r. subst q r.
  unfold Orchestrator.worker_turn, PyQueue.get. simpl.
  unfold Orchestrator.process_transcript, Orchestrator.try_block.
  rewrite Hf. cbv zeta.
  unfold Orchestrator.except_block, Orchestrator.should_retry,
    Orchestrator.default_attempt. simpl.
  apply Z.ltb_lt in Hlt. rewrite Hlt. simpl.
  repeat split. rewrite <- app_assoc. reflexivity.
Qed.

(** Any number of worker turns on such an item: it is still queued, and
    every turn processed it with [attempt = 1]. *)
Lemma worker_requeues_forever
      (st : Orchestrator.Stages) (tid : string) (e : exn) (n : nat) :
  Orchestrator.fetch_data st tid = Raises e ->
  forall (o : Orchestrator.t) (u : nat),
    Orchestrator.running o = true ->
    1 < Orchestrator.max_retries o ->
    let q := {| PyQueue.items := [tid]; PyQueue.unfinished_tasks := S u |} in
    let r := Orchestrator.run_pipeline_worker (replicate n st) o q in
    snd r = q
    /\ Orchestrator.json_log (fst r)
       = Orchestrator.json_log o
         ++ concat (replicate n [started_line tid 1; error_line tid 1 (exn_str e)]).
Proof.
  intros Hf. induction n as [|n IH]; intros o u Hrun Hmax q r; subst q r.
  - simpl. rewrite app_nil_r. auto.
  - simpl. rewrite Hrun.
    destruct (worker_turn_requeues_at_attempt_1 st tid e o [] u Hf Hmax)
      as (Hq & Hr & Hm & Hl).
    cbv zeta in *. simpl in Hq.
    destruct (Orchestrator.worker_turn st o _) as [o' q'] eqn:E. simpl in *.
    subst q'.
    destruct (IH o' u) as (Hq' & Hl'); [congruence | lia |].
    cbv zeta in *. split; [exact Hq'|].
    rewrite Hl', Hl, <- app_assoc. reflexivity.
Qed.

(** C1 fails on the code at the failing input: identifier T-1, its
    fetch raising every time, [max_retries = 3].  The claim has the retried
    item processed with [attempt = k+1] and given up at [max_retries].  The
    worker takes the requeued identifier and calls [process_transcript]
    with the default [attempt = 1] again: after any number [n] of turns the
    item is still queued, the log holds [n] PROCESSING_STARTED lines that
    all carry [attempt = 1], and no PIPELINE_FAILED_FINAL line. *)
Theorem requeued_item_restarts_at_attempt_1 (n : nat) :
  let r := Orchestrator.run_pipeline_worker
             (replicate n stages_fetch_raises)
             (Orchestrator.set_running true
                (Orchestrator.init Orchestrator.default_max_retries))
             (PyQueue.put "T-1" PyQueue.empty) in
  PyQueue.items (snd r) = ["T-1"]
  /\ Orchestrator.json_log (fst r)
     = concat (replicate n [started_line "T-1" 1; error_line "T-1" 1 "RetryError"])
  /\ Orchestrator.entries_with_status "PIPELINE_FAILED_FINAL"
       (Orchestrator.json_log (fst r)) = []
  /\ Forall (fun l => Orchestrator.logged_attempt l = Some (Orchestrator.LInt 1))
       (Orchestrator.entries_with_status "PROCESSING_STARTED"
          (Orchestrator.json_log (fst r))).
Proof.
  intros r.
  destruct (worker_requeues_forever stages_fetch_raises "T-1"
              (RetryError (Error "connection reset")) n eq_refl
              (Orchestrator.set_running true
                 (Orchestrator.init Orchestrator.default_max_retries))
              0%nat eq_refl) as (Hq & Hl).
  { reflexivity. }
  cbv zeta in *. simpl in Hl. subst r.
  change (PyQueue.put "T-1" PyQueue.empty)
    with {| PyQueue.items := ["T-1"]; PyQueue.unfinished_tasks := 1 |}.
  split; [rewrite Hq; reflexivity|].
  split; [exact Hl|].
  rewrite Hl. clear. induction n as [|n IH]; simpl.
  - split; constructor.
  - destruct IH as (IH1 & IH2). split; [exact IH1|].
    constructor; [reflexivity | exact IH2].
Qed.

(** ** The poller (C10, C6, C5) *)

(** A record whose identifier is falsy changes nothing. *)
Lemma handle_row_skips (st : Listener.t * PyQueue.t) (row : gmap string Listener.jval) :
  opt_truthy (Listener.row_get row "transcript_id") = false ->
  Listener.handle_row st row = st.
Proof.
  intros H. destruct st as [l q]. unfold Listener.handle_row.
  destruct (Listener.row_get row "transcript_id") as [tid|]; [|reflexivity].
  simpl in H. rewrite H. reflexivity.
Qed.

Lemma handle_rows_app (xs ys : list (gmap string Listener.jval))
      (st : Listener.t * PyQueue.t) :
  Listener.handle_rows (xs ++ ys) st = Listener.handle_rows ys (Listener.handle_rows xs st).
Proof. unfold Listener.handle_rows. apply fold_left_app. Qed.

(** C10: a discovery record whose [transcript_id] is missing, null or the
    empty string is skipped: handling it leaves the seen set and the queue
    as they were, and the cycle's other records are handled as if the
    record had not been in the response. *)
Theorem record_without_identifier_is_skipped
        (pre post : list (gmap string Listener.jval))
        (bad : gmap string Listener.jval) :
  bad !! "transcript_id" = None
  \/ bad !! "transcript_id" = Some Listener.JNull
  \/ bad !! "transcript_id" = Some (Listener.JStr "") ->
  (forall st, Listener.handle_row st bad = st)
  /\ (forall st, Listener.handle_rows (pre ++ bad :: post) st
                 = Listener.handle_rows (pre ++ post) st)
  /\ (forall now s,
        Listener.loop_turn now (Listener.GongJson (Some (pre ++ bad :: post))) s
        = Listener.loop_turn now (Listener.GongJson (Some (pre ++ post))) s).
Proof.
  intros Hbad.
  assert (Hf : opt_truthy (Listener.row_get bad "transcript_id") = false).
  { unfold Listener.row_get. destruct Hbad as [-> | [-> | ->]]; reflexivity. }
  assert (Hrows : forall st, Listener.handle_rows (pre ++ bad :: post) st
                             = Listener.handle_rows (pre ++ post) st).
  { intros st. rewrite !handle_rows_app.
    change (Listener.handle_rows (bad :: post) (Listener.handle_rows pre st))
      with (Listener.handle_rows post
              (Listener.handle_row (Listener.handle_rows pre st) bad)).
    rewrite handle_row_skips by exact Hf. reflexivity. }
  split; [|split].
  - intros st. apply handle_row_skips. exact Hf.
  - exact Hrows.
  - intros now s. unfold Listener.loop_turn. simpl. rewrite Hrows. reflexivity.
Qed.

(** C10 at a response of three records whose middle one has no
    [transcript_id]: the outcome is that of the other two alone. *)
Lemma record_without_identifier_is_skipped_witness :
  Listener.handle_rows ([row_id "T-1"] ++ row_no_id :: [row_id "T-2"])
    (Listener.init 7 0 300, PyQueue.empty)
  = Listener.handle_rows ([row_id "T-1"] ++ [row_id "T-2"])
      (Listener.init 7 0 300, PyQueue.empty).
Proof.
  apply (proj1 (proj2 (record_without_identifier_is_skipped
                         [row_id "T-1"] [row_id "T-2"] row_no_id
                         (or_introl eq_refl)))).
Defined.

(** *** At most one enqueue per identifier *)

(** What a batch of records does to the seen set and the queue: it appends
    a duplicate-free list [new] of identifiers, none of which was in the
    seen set, and adds exactly those to the seen set. *)
Lemma handle_rows_spec (rows : list (gmap string Listener.jval)) :
  forall (l : Listener.t) (q : PyQueue.t),
  exists new,
    let l' := fst (Listener.handle_rows rows (l, q)) in
    let q' := snd (Listener.handle_rows rows (l, q)) in
    PyQueue.items q' = PyQueue.items q ++ new
    /\ PyQueue.unfinished_tasks q' = (PyQueue.unfinished_tasks q + length new)%nat
    /\ NoDup new
    /\ (forall x, x ∈ new -> x ∉ Listener.processed_ids l)
    /\ Listener.processed_ids l' = Listener.processed_ids l ∪ list_to_set new
    /\ Listener.running l' = Listener.running l.
Proof.
  induction rows as [|row rows IH]; intros l q.
  - exists []. simpl. rewrite app_nil_r. repeat split; auto.
    + constructor.
    + intros x Hx. inversion Hx.
    + set_solver.
  - change (Listener.handle_rows (row :: rows) (l, q))
      with (Listener.handle_rows rows (Listener.handle_row (l, q) row)).
    unfold Listener.handle_row.
    destruct (Listener.row_get row "transcript_id") as [tid|]; [|apply IH].
    destruct (str_truthy tid); simpl; [|apply IH].
    destruct (bool_decide (tid ∈ Listener.processed_ids l)) eqn:E; simpl; [apply IH|].
    apply bool_decide_eq_false in E.
    match goal with
    | |- context [Listener.handle_rows rows (?l1, ?q1)] =>
        destruct (IH l1 q1) as (new & Hi & Hu & Hnd & Hfresh & Hp & Hr)
    end.
    cbv zeta in *. simpl in *.
    exists (tid :: new). repeat split.
    + rewrite Hi, <- app_assoc. reflexivity.
    + rewrite Hu. simpl. lia.
    + constructor; [|exact Hnd]. intros Hin. apply Hfresh in Hin. set_solver.
    + intros x Hx. apply elem_of_cons in Hx as [-> | Hx]; [exact E|].
      apply Hfresh in Hx. set_solver.
    + rewrite Hp. set_solver.
    + exact Hr.
Qed.

(** The same for one turn of the listener loop, whatever it does. *)
Lemma loop_turn_spec (now : Listener.datetime) (reply : Listener.gong_reply)
      (s : Listener.loop_state) :
  exists new,
    let s' := fst (Listener.loop_turn now reply s) in
    PyQueue.items (Listener.event_queue s')
    = PyQueue.items (Listener.event_queue s) ++ new
    /\ NoDup new
    /\ (forall x, x ∈ new -> x ∉ Listener.processed_ids (Listener.self s))
    /\ Listener.processed_ids (Listener.self s')
       = Listener.processed_ids (Listener.self s) ∪ list_to_set new
    /\ Listener.running (Listener.self s') = Listener.running (Listener.self s)
    /\ PyQueue.unfinished_tasks (Listener.event_queue s')
       = (PyQueue.unfinished_tasks (Listener.event_queue s) + length new)%nat.
Proof.
  unfold Listener.loop_turn.
  destruct (Listener.dt_ltb now (Listener.next_run s)).
  - exists []. simpl. rewrite app_nil_r.
    repeat split; auto; [constructor|set_solver|set_solver].
  - destruct (Listener.poll_gong_transcripts reply) as [rows|e].
    + destruct (handle_rows_spec rows (Listener.self s) (Listener.event_queue s))
        as (new & Hi & Hu & Hnd & Hfresh & Hp & Hr).
      cbv zeta in *.
      destruct (Listener.handle_rows rows (Listener.self s, Listener.event_queue s))
        as [l q]. simpl in *.
      exists new. auto 10.
    + exists []. simpl. rewrite app_nil_r.
      repeat split; auto; [constructor|set_solver|set_solver].
Qed.

(** Events other than a listener turn leave the listener alone; a listener
    turn is [loop_turn] on the shared queue. *)
Lemma exec_listener_spec (ev : System.event) (s s' : System.t) :
  System.exec ev s = Some s' ->
  NoDup (System.enqueued_by ev s s')
  /\ (forall x, x ∈ System.enqueued_by ev s s' ->
                x ∉ Listener.processed_ids (System.lis s))
  /\ Listener.processed_ids (System.lis s')
     = Listener.processed_ids (System.lis s)
       ∪ list_to_set (System.enqueued_by ev s s').
Proof.
  destruct ev as [|st| | |now reply]; simpl; intros H.
  - destruct (System.is_exited _); inversion H; subst; simpl.
    repeat split; [constructor|set_solver|set_solver].
  - destruct (System.pc s); try discriminate.
    destruct (Orchestrator.running _); try discriminate.
    destruct (Orchestrator.worker_turn _ _ _). inversion H; subst; simpl.
    repeat split; [constructor|set_solver|set_solver].
  - destruct (System.pc s); try discriminate.
    destruct (Orchestrator.running _); inversion H; subst; simpl.
    repeat split; [constructor|set_solver|set_solver].
  - destruct (System.pc s); try discriminate.
    destruct (PyQueue.join_returns _); inversion H; subst; simpl.
    repeat split; [constructor|set_solver|set_solver].
  - destruct (System.is_exited _); try discriminate.
    destruct (Listener.running _); try discriminate.
    inversion H; subst; clear H. simpl.
    match goal with
    | |- context [Listener.loop_turn now reply ?ls] =>
        destruct (loop_turn_spec now reply ls) as (new & Hi & Hnd & Hfresh & Hp & _)
    end.
    cbv zeta in *. simpl in *. rewrite Hi, drop_app_length. auto.
Qed.

Lemma listener_puts_spec (evs : list System.event) :
  forall s : System.t,
    NoDup (System.listener_puts evs s)
    /\ (forall x, x ∈ System.listener_puts evs s ->
                  x ∉ Listener.processed_ids (System.lis s))
    /\ (forall s', System.exec_all evs s = Some s' ->
          Listener.processed_ids (System.lis s')
          = Listener.processed_ids (System.lis s)
            ∪ list_to_set (System.listener_puts evs s)).
Proof.
  induction evs as [|ev evs IH]; intros s; simpl.
  - repeat split; [constructor|set_solver|].
    intros s' H. inversion H; subst. set_solver.
  - destruct (System.exec ev s) as [s1|] eqn:E.
    + destruct (exec_listener_spec ev s s1 E) as (Hnd & Hfresh & Hp).
      destruct (IH s1) as (Hnd' & Hfresh' & Hp').
      repeat split.
      * apply NoDup_app. split; [exact Hnd|]. split; [|exact Hnd'].
        intros x Hx Hx'. apply Hfresh' in Hx'. rewrite Hp in Hx'. set_solver.
      * intros x Hx. apply elem_of_app in Hx as [Hx|Hx]; [auto|].
        apply Hfresh' in Hx. rewrite Hp in Hx. set_solver.
      * intros s' H. rewrite (Hp' s' H), Hp. set_solver.
    + repeat split; [constructor|set_solver|discriminate].
Qed.

(** C6: within one process lifetime the poller enqueues an identifier at
    most once.  In one turn of its loop the identifiers it puts on the
    queue are distinct, none was in the seen set, and each is in the seen
    set afterwards; over any run of the process from its start (worker
    turns, signals and listener turns in any order) the list of all
    identifiers the listener has put on the queue has no duplicate and is
    the content of the seen set. *)
Theorem poller_enqueues_each_identifier_once :
  (forall now reply s,
     exists new,
       let s' := fst (Listener.loop_turn now reply s) in
       PyQueue.items (Listener.event_queue s')
       = PyQueue.items (Listener.event_queue s) ++ new
       /\ NoDup new
       /\ (forall x, x ∈ new -> x ∉ Listener.processed_ids (Listener.self s))
       /\ (forall x, x ∈ new -> x ∈ Listener.processed_ids (Listener.self s')))
  /\ (forall evs retries next_run,
        let s0 := System.started retries next_run in
        NoDup (System.listener_puts evs s0)
        /\ (forall s', System.exec_all evs s0 = Some s' ->
              forall x, x ∈ System.listener_puts evs s0
                        <-> x ∈ Listener.processed_ids (System.lis s'))).
Proof.
  split.
  - intros now reply s.
    destruct (loop_turn_spec now reply s) as (new & Hi & Hnd & Hfresh & Hp & _).
    exists new. cbv zeta in *. repeat split; auto.
    intros x Hx. rewrite Hp. set_solver.
  - intros evs retries next_run s0.
    destruct (listener_puts_spec evs s0) as (Hnd & _ & Hp).
    split; [exact Hnd|]. intros s' H x. rewrite (Hp s' H). subst s0. simpl. set_solver.
Qed.

(** *** Scheduling *)

(** The turns that fire are those taken at or after [next_run] in which
    polling did not raise; all other turns leave [next_run] alone. *)
Lemma loop_turn_next_run (now : Listener.datetime) (reply : Listener.gong_reply)
      (s : Listener.loop_state) :
  let r := Listener.loop_turn now reply s in
  (snd r = Listener.Fired ->
   Listener.next_run (fst r) = Listener.add_days (Listener.next_run s) 1)
  /\ (snd r <> Listener.Fired -> fst r = s)
  /\ (snd r = Listener.Fired <->
      Listener.dt_ltb now (Listener.next_run s) = false
      /\ is_raise (Listener.poll_gong_transcripts reply) = false).
Proof.
  unfold Listener.loop_turn.
  destruct (Listener.dt_ltb now (Listener.next_run s)); simpl.
  - split; [discriminate|]. split; [reflexivity|].
    split; [discriminate|]. intros [H _]. discriminate.
  - destruct (Listener.poll_gong_transcripts reply) as [rows|e]; simpl.
    + destruct (Listener.handle_rows rows _) as [l q]. simpl.
      split; [reflexivity|]. split; [congruence|]. split; auto.
    + split; [discriminate|]. split; [reflexivity|].
      split; [discriminate|]. intros [_ H]. discriminate.
Qed.



(** ** The summarize stage (C7) *)







(** The loop, one turn unfolded. *)
Lemma wait_for_run_unfold (env : Assistant.Env) (timeout_ms : Z) (i : nat) (elapsed : Z) :
  Assistant.wait_for_run env timeout_ms i elapsed
  = if Z_lt_dec elapsed timeout_ms then
      match Assistant.run_retrieve env i with
      | Raises e => Raises e
      | Returns status =>
          match Assistant.classify status with
          | Assistant.StCompleted => Assistant.read_response env
          | Assistant.StFailed => Returns None
          | Assistant.StOther =>
              Assistant.wait_for_run env timeout_ms (S i)
                (elapsed + Z.of_N (Assistant.retrieve_ms env i) + Assistant.poll_sleep_ms)
          end
      end
    else Returns None.
Proof.
  rewrite Assistant.wait_for_run_equation_1.
  destruct (Z_lt_dec elapsed timeout_ms); simpl; [|reflexivity].
  destruct (Assistant.run_retrieve env i) as [status|e]; simpl; [|reflexivity].
  destruct (Assistant.classify status); reflexivity.
Qed.


Lemma elapsed_at_mono (env : Assistant.Env) (j : nat) :
  Assistant.elapsed_at env j <= Assistant.elapsed_at env (S j).
Proof. simpl. unfold Assistant.poll_sleep_ms. lia. Qed.

(** While the run is pending and time remains, the loop goes on. *)
Lemma wait_for_run_skip_pending (env : Assistant.Env) (timeout_ms : Z) (j : nat) :
  Assistant.pending_before env j ->
  Assistant.elapsed_at env j < timeout_ms ->
  Assistant.wait_for_run env timeout_ms 0 0
  = Assistant.wait_for_run env timeout_ms j (Assistant.elapsed_at env j).
Proof.
  induction j as [|j IH]; intros Hp Ht; [reflexivity|].
  pose proof (elapsed_at_mono env j) as Hm.
  rewrite IH; [| intros i Hi; apply Hp; lia | lia].
  rewrite wait_for_run_unfold.
  destruct (Z_lt_dec (Assistant.elapsed_at env j) timeout_ms); [|lia].
  destruct (Hp j ltac:(lia)) as (status & -> & ->). reflexivity.
Qed.


Lemma get_summary_body_setup (timeout : Z) (env : Assistant.Env) :
  Assistant.setup_ok env ->
  Assistant.get_summary_body timeout env
  = Assistant.wait_for_run env (timeout * 1000) 0 0.
Proof.
  intros (H1 & H2 & H3). unfold Assistant.get_summary_body.
  destruct (Assistant.thread_create env); [|discriminate].
  destruct (Assistant.message_create env); [|discriminate].
  destruct (Assistant.run_create env); [|discriminate]. reflexivity.
Qed.






(** ** Shutdown (C2) *)

(** The listener's loop does end once its own flag is cleared: after
    [stop_listening] no further turn is taken. *)
Lemma listener_stops_on_its_own_flag
      (inputs : list (Listener.datetime * Listener.gong_reply))
      (s : Listener.loop_state) :
  let stopped := {| Listener.self := Listener.stop_listening (Listener.self s);
                    Listener.next_run := Listener.next_run s;
                    Listener.event_queue := Listener.event_queue s |} in
  Listener.run_loop inputs stopped = stopped.
Proof. destruct inputs as [|[now reply] rest]; reflexivity. Qed.

(** The process as [System.started] has it is the one [start_listening]
    sets up on the shared, still empty queue. *)
Lemma started_listener (retries : Z) (now : Listener.datetime) :
  exists ls,
    Listener.start_listening
      (Listener.init Listener.default_run_hour Listener.default_run_minute
         Listener.default_idle_sleep_seconds) PyQueue.empty now = Returns ls
    /\ System.lis (System.started retries (Listener.next_run ls)) = Listener.self ls
    /\ System.event_queue (System.started retries (Listener.next_run ls))
       = Listener.event_queue ls.
Proof. eexists. split; [reflexivity|]. split; reflexivity. Qed.

(** The signal handler clears the orchestrator's flag and nothing else:
    the listener's own [running] attribute stays as it was. *)
Lemma signal_clears_orchestrator_flag_only (s s' : System.t) :
  System.exec System.Signal s = Some s' ->
  Orchestrator.running (System.orch s') = false
  /\ System.lis s' = System.lis s
  /\ System.event_queue s' = System.event_queue s
  /\ System.pc s' = System.pc s.
Proof.
  simpl. destruct (System.is_exited (System.pc s)); [discriminate|].
  intros H. injection H as <-. simpl. auto.
Qed.

(** Once the main thread waits in [join()] with a task unfinished and the
    listener running, every event keeps it there: nothing calls
    [task_done], and the listener can only add to the queue. *)
Lemma join_with_pending_work_never_returns (evs : list System.event) :
  forall s s' : System.t,
    System.pc s = System.InJoin ->
    (0 < PyQueue.unfinished_tasks (System.event_queue s))%nat ->
    Listener.running (System.lis s) = true ->
    System.exec_all evs s = Some s' ->
    System.pc s' = System.InJoin
    /\ (0 < PyQueue.unfinished_tasks (System.event_queue s'))%nat
    /\ Listener.running (System.lis s') = true.
Proof.
  induction evs as [|ev evs IH]; intros s s' Hpc Hu Hl; simpl.
  - intros H. injection H as <-. auto.
  - destruct (System.exec ev s) as [s1|] eqn:E; [|discriminate].
    apply IH; clear IH.
    + destruct ev; simpl in E; rewrite ?Hpc in E; simpl in E;
        try discriminate; try (injection E as <-; reflexivity).
      * destruct (PyQueue.join_returns _) eqn:J; [|discriminate].
        unfold PyQueue.join_returns in J. apply Nat.eqb_eq in J. lia.
      * rewrite Hl in E. injection E as <-. reflexivity.
    + destruct ev; simpl in E; rewrite ?Hpc in E; simpl in E;
        try discriminate; try (injection E as <-; exact Hu).
      * destruct (PyQueue.join_returns _) eqn:J; [|discriminate].
        unfold PyQueue.join_returns in J. apply Nat.eqb_eq in J. lia.
      * rewrite Hl in E. injection E as <-. simpl.
        match goal with
        | |- context [Listener.loop_turn now reply ?ls] =>
            destruct (loop_turn_spec now reply ls) as (new & _ & _ & _ & _ & _ & Hq)
        end.
        cbv zeta in Hq. simpl in Hq. rewrite Hq. lia.
    + destruct ev; simpl in E; rewrite ?Hpc in E; simpl in E;
        try discriminate; try (injection E as <-; exact Hl).
      * destruct (PyQueue.join_returns _) eqn:J; [|discriminate].
        unfold PyQueue.join_returns in J. apply Nat.eqb_eq in J. lia.
      * rewrite Hl in E. injection E as <-. simpl.
        match goal with
        | |- context [Listener.loop_turn now reply ?ls] =>
            destruct (loop_turn_spec now reply ls) as (new & _ & _ & _ & _ & Hr & _)
        end.
        cbv zeta in Hr. simpl in Hr. rewrite Hr. exact Hl.
Qed.

(** C2 fails on the code at the failing input: a termination signal, then
    the listener thread's next turn.  The claim has one running flag
    checked by both loops, so that intake stops and the queue drains.  The
    handler clears [Orchestrator.running] only; the listener loop checks
    [GongListener.running], which nothing clears.  After the signal the
    listener still takes its turn and enqueues T-9; the worker loop has
    ended, so the main thread waits in [join()] on a task that no one will
    mark done: whatever happens next, it is still in [join()] and the
    listener is still running. *)
Theorem signal_does_not_stop_poller :
  exists s,
    System.exec_all shutdown_trace
      (System.started Orchestrator.default_max_retries first_run) = Some s
    /\ Orchestrator.running (System.orch s) = false
    /\ Listener.running (System.lis s) = true
    /\ PyQueue.items (System.event_queue s) = ["T-9"]
    /\ System.pc s = System.InJoin
    /\ (forall evs s',
          System.exec_all evs s = Some s' ->
          System.pc s' = System.InJoin /\ Listener.running (System.lis s') = true).
Proof.
  eexists. split; [vm_compute; reflexivity|].
  repeat split; try reflexivity.
  - eapply (join_with_pending_work_never_returns evs); [| | |exact H];
      vm_compute; (reflexivity || lia).
  - eapply (join_with_pending_work_never_returns evs); [| | |exact H];
      vm_compute; (reflexivity || lia).
Qed.

(** ** The document stage (C9) *)

Lemma str_take_length (s : string) : Drive.str_take (String.length s) s = s.
Proof. induction s as [|c s IH]; simpl; [reflexivity | rewrite IH; reflexivity]. Qed.

Lemma str_drop_length (s : string) : Drive.str_drop (String.length s) s = "".
Proof. induction s as [|c s IH]; simpl; [reflexivity | exact IH]. Qed.

Lemma str_append_empty_r (s : string) : s +:+ "" = s.
Proof.
  induction s as [|c s IH]; [reflexivity|].
  change (String c s +:+ "") with (String c (s +:+ "")). rewrite IH. reflexivity.
Qed.


(** Sequencing: a sequence that returns went through both of its parts. *)
Lemma bind_returns {A B} (c : Drive.M A) (k : A -> Drive.M B)
      (d d' : Drive.t) (b : B) :
  Drive.bind c k d = (Returns b, d') ->
  exists a d1, c d = (Returns a, d1) /\ k a d1 = (Returns b, d').
Proof.
  unfold Drive.bind. destruct (c d) as [[a|e] d1]; [|discriminate].
  intros H. exists a, d1. auto.
Qed.

Lemma request_returns {A} (f : Drive.t -> outcome A * Drive.t)
      (d d' : Drive.t) (a : A) :
  Drive.request f d = (Returns a, d') ->
  Drive.up d = true /\ f d = (Returns a, d').
Proof.
  unfold Drive.request. destruct (Drive.up d); [auto | discriminate].
Qed.



(** [find_or_create]: either the listing had a first file, which is
    returned with the Drive untouched, or the listing was empty and one
    file is created under the next identifier. *)
Lemma find_or_create_spec (nm mime : string) (parent : option nat)
      (d d' : Drive.t) (i : nat) :
  Drive.find_or_create nm mime parent d = (Returns i, d') ->
  Drive.up d = true
  /\ ((d' = d /\ found nm mime parent d i)
      \/ (List.filter (Drive.matches nm mime parent) (Drive.files d) = []
          /\ i = Drive.next_id d
          /\ d' = {| Drive.up := Drive.up d;
                     Drive.files := Drive.files d ++ [created_file i nm mime parent];
                     Drive.docs := if String.eqb mime Drive.document_mime
                                   then <[i := ""]> (Drive.docs d) else Drive.docs d;
                     Drive.next_id := S i |})).
Proof.
  unfold Drive.find_or_create. intros H.
  apply bind_returns in H as (items & d1 & Hlist & Hk).
  apply request_returns in Hlist as [Hup Hlist]. injection Hlist as <- <-.
  split; [exact Hup|].
  destruct (List.filter _ _) as [|f rest] eqn:E.
  - right. split; [reflexivity|].
    apply request_returns in Hk as [_ Hk]. injection Hk as <- <-.
    split; reflexivity.
  - left. injection Hk as <- <-. split; [reflexivity|].
    unfold found. rewrite E. reflexivity.
Qed.

Lemma str_length_zero (s : string) : String.length s = 0%nat -> s = "".
Proof. destruct s; [reflexivity | discriminate]. Qed.

Lemma batch_insert_spec (doc_id : nat) (index : Z) (content : string)
      (d d' : Drive.t) (u : unit) :
  Drive.batch_insert doc_id index content d = (Returns u, d') ->
  exists text,
    Drive.docs d !! doc_id = Some text
    /\ d' = with_doc d doc_id
              (Drive.str_take (Z.to_nat (index - 1)) text
               +:+ content +:+ Drive.str_drop (Z.to_nat (index - 1)) text).
Proof.
  intros H. apply request_returns in H as [_ H].
  destruct (Drive.docs d !! doc_id) as [text|]; [|discriminate].
  destruct (_ && _)%bool; [|discriminate].
  injection H as _ <-. exists text. split; reflexivity.
Qed.

Lemma overwrite_doc_spec (doc_id : nat) (content : string) (d d' : Drive.t) (u : unit) :
  Drive.overwrite_doc doc_id content d = (Returns u, d') ->
  d' = with_doc d doc_id content.
Proof.
  unfold Drive.overwrite_doc. intros H.
  apply bind_returns in H as (last_end & d1 & Hget & H).
  apply request_returns in Hget as [_ Hget].
  destruct (Drive.docs d !! doc_id) as [text|] eqn:Htext; [|discriminate].
  injection Hget as <- <-.
  apply bind_returns in H as (u1 & d2 & Hdel & Hins).
  apply batch_insert_spec in Hins as (text2 & Htext2 & ->).
  change (Z.to_nat (1 - 1)) with 0%nat. simpl Drive.str_take. simpl Drive.str_drop.
  destruct (1 <? Z.of_nat (String.length text) + 2 - 1)%Z eqn:E.
  - apply request_returns in Hdel as [_ Hdel]. rewrite Htext in Hdel.
    destruct (_ && _)%bool; [|discriminate].
    injection Hdel as _ <-. simpl in Htext2. rewrite lookup_insert_eq in Htext2.
    injection Htext2 as <-.
    replace (Z.to_nat (Z.of_nat (String.length text) + 2 - 1 - 1))
      with (String.length text) by lia.
    rewrite str_drop_length.
    change ("" +:+ content +:+ "" +:+ "") with (content +:+ "").
    unfold with_doc. simpl.
    rewrite insert_insert_eq, !str_append_empty_r. reflexivity.
  - injection Hdel as _ <-. rewrite Htext in Htext2. injection Htext2 as <-.
    apply Z.ltb_ge in E.
    assert (text = "") as -> by (apply str_length_zero; lia).
    change ("" +:+ content +:+ "") with (content +:+ "").
    rewrite str_append_empty_r. reflexivity.
Qed.

Lemma append_to_doc_spec (doc_id : nat) (content : string) (d d' : Drive.t) (u : unit) :
  Drive.append_to_doc doc_id content d = (Returns u, d') ->
  exists text,
    Drive.docs d !! doc_id = Some text
    /\ d' = with_doc d doc_id (text +:+ content).
Proof.
  unfold Drive.append_to_doc. intros H.
  apply bind_returns in H as (last_end & d1 & Hget & H).
  apply request_returns in Hget as [_ Hget].
  destruct (Drive.docs d !! doc_id) as [text|] eqn:Htext; [|discriminate].
  injection Hget as <- <-.
  apply batch_insert_spec in H as (text2 & Htext2 & ->).
  rewrite Htext in Htext2. injection Htext2 as <-.
  exists text. split; [reflexivity|].
  replace (Z.to_nat (Z.of_nat (String.length text) + 2 - 1 - 1))
    with (String.length text) by lia.
  rewrite str_take_length, str_drop_length, str_append_empty_r. reflexivity.
Qed.









(** The steps of a successful [update_drive_docs]. *)
Lemma update_drive_docs_steps (account_name summary timestamp : string)
      (d d' : Drive.t) (u : string * string) :
  Drive.update_drive_docs account_name summary timestamp d = (Returns u, d') ->
  exists c dA f dB a dC b dE text,
    Drive.find_or_create Drive.clients_folder_name Drive.folder_mime None d
    = (Returns c, dA)
    /\ Drive.find_or_create account_name Drive.folder_mime (Some c) dA = (Returns f, dB)
    /\ Drive.find_or_create "Call Summary" Drive.document_mime (Some f) dB
       = (Returns a, dC)
    /\ Drive.find_or_create "Summary Log" Drive.document_mime (Some f)
         (with_doc dC a summary) = (Returns b, dE)
    /\ Drive.docs dE !! b = Some text
    /\ d' = with_doc dE b (text +:+ Drive.log_entry timestamp summary)
    /\ u = (Drive.get_doc_url a, Drive.get_doc_url b).
Proof.
  unfold Drive.update_drive_docs, Drive.get_or_create_account_folder,
    Drive.get_or_create_clients_folder, Drive.get_or_create_doc.
  intros H.
  apply bind_returns in H as (f & dB & Hfolder & H).
  apply bind_returns in Hfolder as (c & dA & Hc & Hf).
  apply bind_returns in H as (a & dC & Ha & H).
  apply bind_returns in H as (u1 & dD & Hover & H).
  apply overwrite_doc_spec in Hover as ->.
  apply bind_returns in H as (b & dE & Hb & H).
  apply bind_returns in H as (u2 & dF & Happ & H).
  apply append_to_doc_spec in Happ as (text & Htext & ->).
  injection H as <- <-.
  exists c, dA, f, dB, a, dC, b, dE, text. auto 10.
Qed.








(** The run itself: folder 1 (inside Clientes, 0), primary document 2 and
    log document 3; one document of each name, the primary holding the
    second summary and the log both entries. *)
Example acme_two_calls :
  fst acme_second
  = Returns ("https://docs.google.com/document/d/2/edit",
             "https://docs.google.com/document/d/3/edit")
  /\ Drive.docs_named (snd acme_second) 1 "Call Summary" = [2%nat]
  /\ Drive.docs_named (snd acme_second) 1 "Summary Log" = [3%nat]
  /\ Drive.docs (snd acme_second) !! 2%nat = Some "Second summary"
  /\ Drive.docs (snd acme_second) !! 3%nat
     = Some (Drive.log_entry "2025-03-01 07:00" "First summary"
             +:+ Drive.log_entry "2025-03-02 07:00" "Second summary").
Proof. vm_compute. repeat split; reflexivity. Qed.


(** * Further properties of the code *)

(** ** The retry policy, run by run *)

(** The decorated call under the stage policy, spelled out on the first
    three runs of the body. *)
Lemma retrying_stage_policy_runs {A} (fn : nat -> outcome A) :
  Tenacity.retrying Tenacity.stage_policy fn
  = match fn 0%nat with
    | Returns v =>
        {| Tenacity.result := Returns v; Tenacity.calls := 1; Tenacity.sleeps := [] |}
    | Raises _ =>
        match fn 1%nat with
        | Returns v =>
            {| Tenacity.result := Returns v; Tenacity.calls := 2;
               Tenacity.sleeps := [4] |}
        | Raises _ =>
            match fn 2%nat with
            | Returns v =>
                {| Tenacity.result := Returns v; Tenacity.calls := 3;
                   Tenacity.sleeps := [4; 4] |}
            | Raises e =>
                {| Tenacity.result := Raises (RetryError e); Tenacity.calls := 3;
                   Tenacity.sleeps := [4; 4] |}
            end
        end
    end.
Proof.
  unfold Tenacity.retrying. simpl.
  destruct (fn 0%nat); [reflexivity|].
  destruct (fn 1%nat); [reflexivity|].
  destruct (fn 2%nat); reflexivity.
Qed.

(** A decorated stage call runs its body at most three times and sleeps
    exactly 4 before each further run (the exponential 1, 2 stays below
    the floor of 4, so the wait never grows).  It returns a value exactly
    when one of the first three runs returns it and all runs before that
    one raise; it raises exactly when the first three runs all raise, and
    what it raises is [RetryError] around the third run's exception. *)
Theorem stage_policy_waits_four_and_returns_first_value
        {A : Type} (fn : nat -> outcome A) :
  let r := Tenacity.retrying Tenacity.stage_policy fn in
  (1 <= Tenacity.calls r <= 3)%nat
  /\ Tenacity.sleeps r = replicate (Tenacity.calls r - 1) 4
  /\ (forall v,
        Tenacity.result r = Returns v <->
        exists k, (k < 3)%nat /\ fn k = Returns v
                  /\ forall j, (j < k)%nat -> is_raise (fn j) = true)
  /\ (forall e,
        Tenacity.result r = Raises e <->
        exists e3, e = RetryError e3 /\ fn 2%nat = Raises e3
                   /\ is_raise (fn 0%nat) = true /\ is_raise (fn 1%nat) = true).
Proof.
  intros r. subst r. rewrite retrying_stage_policy_runs.
  destruct (fn 0%nat) as [v0|e0] eqn:E0.
  { simpl. split; [lia|]. split; [reflexivity|]. split.
    - intros v. split.
      + intros H. exists 0%nat. split; [lia|]. split; [congruence|]. intros j Hj. lia.
      + intros (k & Hk & Hv & Hr). destruct k as [|k]; [congruence|].
        specialize (Hr 0%nat ltac:(lia)). rewrite E0 in Hr. discriminate.
    - intros e. split; [discriminate|].
      intros (e3 & _ & _ & H & _). discriminate H. }
  destruct (fn 1%nat) as [v1|e1] eqn:E1.
  { simpl. split; [lia|]. split; [reflexivity|]. split.
    - intros v. split.
      + intros H. exists 1%nat. split; [lia|]. split; [congruence|].
        intros j Hj. assert (j = 0)%nat as -> by lia. rewrite E0. reflexivity.
      + intros (k & Hk & Hv & Hr). destruct k as [|[|k]]; [congruence|congruence|].
        specialize (Hr 1%nat ltac:(lia)). rewrite E1 in Hr. discriminate.
    - intros e. split; [discriminate|].
      intros (e3 & _ & _ & _ & H). discriminate H. }
  destruct (fn 2%nat) as [v2|e2] eqn:E2.
  { simpl. split; [lia|]. split; [reflexivity|]. split.
    - intros v. split.
      + intros H. exists 2%nat. split; [lia|]. split; [congruence|].
        intros j Hj. destruct j as [|[|j]]; [rewrite E0|rewrite E1|lia]; reflexivity.
      + intros (k & Hk & Hv & Hr). destruct k as [|[|[|k]]]; try congruence. lia.
    - intros e. split; [discriminate|].
      intros (e3 & _ & H & _). discriminate. }
  simpl. split; [lia|]. split; [reflexivity|]. split.
  - intros v. split; [discriminate|].
    intros (k & Hk & Hv & _). destruct k as [|[|[|k]]]; try congruence. lia.
  - intros e. split.
    + intros H. injection H as <-. exists e2. auto.
    + intros (e3 & -> & H & _). congruence.
Qed.

(** ** Fetch: the record invariant on every attempt *)

(** Whatever run of the body it comes from, a record returned by
    [fetch_data] is the copy of a fetched row, and its account name,
    account number, speaker name, speaker email, CS email, AM email and
    transcript text are all non-empty. *)
Theorem fetched_record_is_complete
        (replies : nat -> Fetcher.db_reply) (d : Fetcher.TranscriptData) :
  Tenacity.result (Fetcher.fetch_data replies) = Returns (Some d) ->
  (exists k row, (k < 3)%nat /\ replies k = Fetcher.DbFetched (Some row)
                 /\ d = data_of_row row)
  /\ opt_truthy (Fetcher.account_name d) = true
  /\ opt_truthy (Fetcher.account_number d) = true
  /\ opt_truthy (Fetcher.speaker_name d) = true
  /\ opt_truthy (Fetcher.speaker_email d) = true
  /\ opt_truthy (Fetcher.cs_email d) = true
  /\ opt_truthy (Fetcher.am_email d) = true
  /\ opt_truthy (Fetcher.transcript_text d) = true.
Proof.
  unfold Fetcher.fetch_data. rewrite retrying_stage_policy_runs. intros H.
  assert (Hk : exists k, (k < 3)%nat
                         /\ Fetcher.fetch_data_body (replies k) = Returns (Some d)).
  { destruct (Fetcher.fetch_data_body (replies 0%nat)) eqn:E0;
      [exists 0%nat; split; [lia | simpl in H; congruence]|].
    destruct (Fetcher.fetch_data_body (replies 1%nat)) eqn:E1;
      [exists 1%nat; split; [lia | simpl in H; congruence]|].
    destruct (Fetcher.fetch_data_body (replies 2%nat)) eqn:E2;
      [exists 2%nat; split; [lia | simpl in H; congruence]|].
    simpl in H. discriminate H. }
  destruct Hk as (k & Hk & Hbody). clear H.
  destruct (replies k) as [e|[row|]] eqn:Er;
    unfold Fetcher.fetch_data_body in Hbody; try discriminate.
  destruct (Fetcher.py_all (Fetcher.critical_fields row)) eqn:E;
    simpl in Hbody; [|discriminate].
  injection Hbody as <-.
  apply py_all_critical in E. split; [exists k, row; auto|]. exact E.
Qed.

(** A connection error on the first run, the Acme row on the second. *)
Lemma fetched_record_is_complete_witness :
  opt_truthy (Fetcher.account_name (data_of_row row_acme)) = true
  /\ opt_truthy (Fetcher.transcript_text (data_of_row row_acme)) = true.
Proof.
  destruct (fetched_record_is_complete
              (fun k => match k with
                        | O => Fetcher.DbRaises (Error "connection reset")
                        | S _ => Fetcher.DbFetched (Some row_acme)
                        end)
              (data_of_row row_acme) eq_refl)
    as (_ & H1 & _ & _ & _ & _ & _ & H7).
  split; [exact H1 | exact H7].
Defined.

(** ** Summarize: the success path, the edge of the timeout, exceptions *)

Lemma strip_empty : Assistant.strip "" = "".
Proof. reflexivity. Qed.

(** A run that completes in time with a response that is not blank: the
    summary is the response trimmed, handed back by the run of the body
    that saw it. *)
Theorem get_summary_returns_trimmed_response
        (timeout : Z) (envs : nat -> Assistant.Env) (k j : nat) (resp : string) :
  (k < 3)%nat ->
  (forall i, (i < k)%nat ->
     is_raise (Assistant.get_summary_body timeout (envs i)) = true) ->
  Assistant.setup_ok (envs k) ->
  Assistant.pending_before (envs k) j ->
  Assistant.elapsed_at (envs k) j < timeout * 1000 ->
  Assistant.run_retrieve (envs k) j = Returns "completed" ->
  Assistant.messages_list (envs k) = Returns (Some resp) ->
  Assistant.strip resp <> "" ->
  let call := Assistant.get_summary timeout envs in
  Tenacity.result call = Returns (Some (Assistant.strip resp))
  /\ Tenacity.calls call = S k.
Proof.
  intros Hk Hraise Hs Hp Ht Hr Hm Hne call.
  assert (Hbody : Assistant.get_summary_body timeout (envs k)
                  = Returns (Some (Assistant.strip resp))).
  { rewrite (get_summary_body_setup timeout (envs k) Hs).
    rewrite (wait_for_run_skip_pending (envs k) _ j Hp Ht), wait_for_run_unfold.
    destruct (Z_lt_dec _ _); [|lia].
    rewrite Hr. simpl. unfold Assistant.read_response. rewrite Hm. simpl.
    assert (Hresp : str_truthy resp = true).
    { apply str_truthy_true. intros ->. apply Hne. reflexivity. }
    rewrite Hresp. apply str_truthy_true in Hne. rewrite Hne. reflexivity. }
  destruct (retrying_returns
              (fun k => Assistant.get_summary_body timeout (envs k)) k _ Hk Hraise Hbody)
    as (H1 & H2 & _).
  split; [exact H1 | exact H2].
Qed.

Lemma get_summary_returns_trimmed_response_witness :
  Tenacity.result
    (Assistant.get_summary Assistant.default_timeout (fun _ => env_completes_second))
  = Returns (Some "Summary text").
Proof.
  apply (get_summary_returns_trimmed_response Assistant.default_timeout
           (fun _ => env_completes_second) 0 1 "  Summary text ").
  - lia.
  - intros i Hi. lia.
  - repeat split.
  - intros i Hi. assert (i = 0)%nat as -> by lia.
    exists "in_progress". split; reflexivity.
  - vm_compute. reflexivity.
  - reflexivity.
  - reflexivity.
  - vm_compute. discriminate.
Defined.

(** With a timeout of zero or less the loop is never entered: the run is
    not polled at all and no summary can come back, whatever state the
    assistant run is in; when thread, message and run were created, the
    result is [None] after a single run of the body. *)
Theorem get_summary_without_time_polls_nothing
        (timeout : Z) (envs : nat -> Assistant.Env) :
  timeout <= 0 ->
  let call := Assistant.get_summary timeout envs in
  (forall s, Tenacity.result call <> Returns (Some s))
  /\ (Assistant.setup_ok (envs 0%nat) ->
      Tenacity.result call = Returns None /\ Tenacity.calls call = 1%nat).
Proof.
  intros Ht call.
  assert (Hbody : forall env,
            Assistant.get_summary_body timeout env = Returns None
            \/ is_raise (Assistant.get_summary_body timeout env) = true).
  { intros env. unfold Assistant.get_summary_body.
    destruct (Assistant.thread_create env); [|right; reflexivity].
    destruct (Assistant.message_create env); [|right; reflexivity].
    destruct (Assistant.run_create env); [|right; reflexivity].
    left. rewrite wait_for_run_unfold.
    destruct (Z_lt_dec 0 (timeout * 1000)); [lia | reflexivity]. }
  split.
  - intros s H. apply retrying_returns_inv in H as (k & Hk).
    destruct (Hbody (envs k)) as [H | H]; rewrite Hk in H; discriminate.
  - intros Hs.
    assert (H0 : Assistant.get_summary_body timeout (envs 0%nat) = Returns None).
    { destruct (Hbody (envs 0%nat)) as [H | H]; [exact H|].
      rewrite (get_summary_body_setup timeout _ Hs), wait_for_run_unfold in H.
      destruct (Z_lt_dec 0 (timeout * 1000)); [lia | discriminate]. }
    destruct (retrying_returns
                (fun k => Assistant.get_summary_body timeout (envs k)) 0 None
                ltac:(lia) ltac:(intros j Hj; lia) H0)
      as (H1 & H2 & _).
    split; [exact H1 | exact H2].
Qed.

Lemma get_summary_without_time_polls_nothing_witness :
  Tenacity.result (Assistant.get_summary 0 (fun _ => env_completes_second))
  = Returns None.
Proof.
  apply (proj2 (get_summary_without_time_polls_nothing 0
                  (fun _ => env_completes_second) ltac:(lia))).
  repeat split.
Defined.




(** ** Notify: when both e-mails count as sent *)

Lemma retrying_returns_iff {A} (fn : nat -> outcome A) (v : A) :
  Tenacity.result (Tenacity.retrying Tenacity.stage_policy fn) = Returns v <->
  exists k, (k < 3)%nat /\ fn k = Returns v
            /\ forall j, (j < k)%nat -> is_raise (fn j) = true.
Proof.
  split.
  - rewrite retrying_stage_policy_runs.
    destruct (fn 0%nat) as [v0|e0] eqn:E0.
    { simpl. intros H. exists 0%nat. split; [lia|]. split; [congruence|].
      intros j Hj. lia. }
    destruct (fn 1%nat) as [v1|e1] eqn:E1.
    { simpl. intros H. exists 1%nat. split; [lia|]. split; [congruence|].
      intros j Hj. assert (j = 0)%nat as -> by lia. rewrite E0. reflexivity. }
    destruct (fn 2%nat) as [v2|e2] eqn:E2; simpl; [|discriminate].
    intros H. exists 2%nat. split; [lia|]. split; [congruence|].
    intros j Hj. destruct j as [|[|j]]; [rewrite E0|rewrite E1|lia]; reflexivity.
  - intros (k & Hk & Hv & Hr). apply (retrying_returns fn k v Hk Hr Hv).
Qed.

Lemma send_email_returns_iff (smtp : nat -> outcome unit) (to_email v : string) :
  Tenacity.result (Email.send_email smtp to_email) = Returns v <->
  succeeds_within_three smtp /\ v = "EMAIL_SENT_" +:+ to_email.
Proof.
  unfold Email.send_email. rewrite retrying_returns_iff. unfold succeeds_within_three.
  split.
  - intros (k & Hk & Hv & Hr). split.
    + exists k. split; [exact Hk|]. split.
      * unfold Email.send_email_body in Hv. destruct (smtp k); [reflexivity|discriminate].
      * intros j Hj. specialize (Hr j Hj). unfold Email.send_email_body in Hr.
        destruct (smtp j); [discriminate|reflexivity].
    + unfold Email.send_email_body in Hv. destruct (smtp k); congruence.
  - intros ((k & Hk & Hv & Hr) & ->). exists k. split; [exact Hk|]. split.
    + unfold Email.send_email_body. destruct (smtp k); [reflexivity|discriminate].
    + intros j Hj. specialize (Hr j Hj). unfold Email.send_email_body.
      destruct (smtp j); [discriminate|reflexivity].
Qed.

(** [send_emails] returns exactly when both templates render and the SMTP
    session of each recipient succeeds within three runs; the two statuses
    are then EMAIL_SENT_ followed by the CS address and by the AM address.
    In every other case it raises, also when one of the two messages has
    already gone out. *)
Theorem send_emails_returns_iff_both_sent
        (env : Email.Env) (data : Fetcher.TranscriptData) (st : string * string) :
  Email.send_emails env data = Returns st <->
  is_raise (Email.render_cs env) = false
  /\ succeeds_within_three (Email.smtp_cs env)
  /\ is_raise (Email.render_am env) = false
  /\ succeeds_within_three (Email.smtp_am env)
  /\ st = ("EMAIL_SENT_" +:+ Email.py_str (Fetcher.cs_email data),
           "EMAIL_SENT_" +:+ Email.py_str (Fetcher.am_email data)).
Proof.
  unfold Email.send_emails.
  destruct (Email.render_cs env) as [c|e].
  2:{ split; [discriminate|]. intros (H & _). discriminate. }
  destruct (Tenacity.result (Email.send_email (Email.smtp_cs env) _)) as [cs|e] eqn:Ecs.
  2:{ split; [discriminate|]. intros (_ & H & _). exfalso.
      assert (Hx : Tenacity.result
                     (Email.send_email (Email.smtp_cs env)
                        (Email.py_str (Fetcher.cs_email data)))
                   = Returns ("EMAIL_SENT_" +:+ Email.py_str (Fetcher.cs_email data))).
      { apply send_email_returns_iff. auto. }
      congruence. }
  apply send_email_returns_iff in Ecs as [Hcs ->].
  destruct (Email.render_am env) as [a|e].
  2:{ split; [discriminate|]. intros (_ & _ & H & _). discriminate. }
  destruct (Tenacity.result (Email.send_email (Email.smtp_am env) _)) as [am|e] eqn:Eam.
  2:{ split; [discriminate|]. intros (_ & _ & _ & H & _). exfalso.
      assert (Hx : Tenacity.result
                     (Email.send_email (Email.smtp_am env)
                        (Email.py_str (Fetcher.am_email data)))
                   = Returns ("EMAIL_SENT_" +:+ Email.py_str (Fetcher.am_email data))).
      { apply send_email_returns_iff. auto. }
      congruence. }
  apply send_email_returns_iff in Eam as [Ham ->].
  split.
  - intros H. injection H as <-. auto 10.
  - intros (_ & _ & _ & _ & ->). reflexivity.
Qed.

(** ** The poller: sleeping, failed polls, what a cycle enqueues *)

(** Before the scheduled time a turn of the loop only sleeps: it sends no
    request (what Gong would answer plays no part), changes nothing, and
    sleeps at least one second, at most the idle interval (or the one
    second floor), and not past the scheduled time by more than that
    floor. *)
Theorem listener_sleeps_in_bounded_steps
        (now : Listener.datetime) (reply reply' : Listener.gong_reply)
        (s : Listener.loop_state) :
  Listener.dt_ltb now (Listener.next_run s) = true ->
  exists us,
    Listener.loop_turn now reply s = (s, Listener.Slept us)
    /\ Listener.loop_turn now reply' s = (s, Listener.Slept us)
    /\ 1000000 <= us
    /\ us <= Z.max 1000000 (Listener.idle_sleep_seconds (Listener.self s) * 1000000)
    /\ us <= Z.max 1000000 (Listener.diff_us (Listener.next_run s) now).
Proof.
  intros Hlt. unfold Listener.loop_turn. rewrite Hlt.
  eexists. split; [reflexivity|]. split; [reflexivity|]. lia.
Qed.

(** At 14:00 with the run due at 07:00 the next day: a sleep between one
    second and the idle interval of 300 seconds. *)
Lemma listener_sleeps_in_bounded_steps_witness :
  exists us,
    Listener.loop_turn afternoon (Listener.GongJson None) waiting_listener
    = (waiting_listener, Listener.Slept us)
    /\ 1000000 <= us /\ us <= 300000000.
Proof.
  destruct (listener_sleeps_in_bounded_steps afternoon (Listener.GongJson None)
              (Listener.GongJson None) waiting_listener eq_refl)
    as (us & H & _ & Hlo & Hhi & _).
  exists us. split; [exact H|]. split; [exact Hlo | exact Hhi].
Defined.



Lemma truthy_ids_cons (row : gmap string Listener.jval)
      (rows : list (gmap string Listener.jval)) :
  truthy_ids (row :: rows)
  = match Listener.row_get row "transcript_id" with
    | Some t => if str_truthy t then t :: truthy_ids rows else truthy_ids rows
    | None => truthy_ids rows
    end.
Proof.
  unfold truthy_ids. simpl.
  destruct (Listener.row_get row "transcript_id") as [t|]; [|reflexivity].
  destruct (str_truthy t); reflexivity.
Qed.

(** What a batch of records leaves behind, in terms of the identifiers of
    the response. *)
Lemma handle_rows_complete (rows : list (gmap string Listener.jval)) :
  forall (l : Listener.t) (q : PyQueue.t),
  exists new,
    let l' := fst (Listener.handle_rows rows (l, q)) in
    let q' := snd (Listener.handle_rows rows (l, q)) in
    PyQueue.items q' = PyQueue.items q ++ new
    /\ sublist new (truthy_ids rows)
    /\ Listener.processed_ids l'
       = Listener.processed_ids l ∪ list_to_set (truthy_ids rows)
    /\ (forall x, x ∈ truthy_ids rows -> x ∉ Listener.processed_ids l -> x ∈ new).
Proof.
  induction rows as [|row rows IH]; intros l q.
  - exists []. simpl. rewrite app_nil_r. repeat split.
    + constructor.
    + set_solver.
    + intros x Hx. inversion Hx.
  - change (Listener.handle_rows (row :: rows) (l, q))
      with (Listener.handle_rows rows (Listener.handle_row (l, q) row)).
    rewrite truthy_ids_cons. unfold Listener.handle_row.
    destruct (Listener.row_get row "transcript_id") as [tid|]; [|apply IH].
    destruct (str_truthy tid); simpl; [|apply IH].
    destruct (bool_decide (tid ∈ Listener.processed_ids l)) eqn:E; simpl.
    + apply bool_decide_eq_true in E.
      destruct (IH l q) as (new & Hi & Hsub & Hp & Hall). cbv zeta in *.
      exists new. repeat split.
      * exact Hi.
      * apply sublist_cons. exact Hsub.
      * rewrite Hp. set_solver.
      * intros x Hx Hnot. apply elem_of_cons in Hx as [-> | Hx]; [contradiction|].
        apply Hall; assumption.
    + apply bool_decide_eq_false in E.
      match goal with
      | |- context [Listener.handle_rows rows (?l1, ?q1)] =>
          destruct (IH l1 q1) as (new & Hi & Hsub & Hp & Hall)
      end.
      cbv zeta in *. simpl in *.
      exists (tid :: new). repeat split.
      * rewrite Hi, <- app_assoc. reflexivity.
      * apply sublist_skip. exact Hsub.
      * rewrite Hp. set_solver.
      * intros x Hx Hnot. apply elem_of_cons in Hx as [-> | Hx]; [left|].
        destruct (decide (x = tid)) as [-> | Hne]; [left|].
        right. apply Hall; [exact Hx | set_solver].
Qed.

(** A cycle that fires loses no discovery: afterwards the seen set is the
    former seen set together with every non-empty identifier of the
    response; the identifiers appended to the queue come in response
    order, and every identifier of the response that was not seen before
    is among them. *)
Theorem firing_cycle_enqueues_every_new_identifier
        (now : Listener.datetime) (rows : list (gmap string Listener.jval))
        (s : Listener.loop_state) :
  Listener.dt_ltb now (Listener.next_run s) = false ->
  let s' := fst (Listener.loop_turn now (Listener.GongJson (Some rows)) s) in
  exists new,
    PyQueue.items (Listener.event_queue s')
    = PyQueue.items (Listener.event_queue s) ++ new
    /\ sublist new (truthy_ids rows)
    /\ Listener.processed_ids (Listener.self s')
       = Listener.processed_ids (Listener.self s) ∪ list_to_set (truthy_ids rows)
    /\ (forall x, x ∈ truthy_ids rows ->
                  x ∉ Listener.processed_ids (Listener.self s) -> x ∈ new).
Proof.
  intros Hge s'. subst s'. unfold Listener.loop_turn. rewrite Hge. simpl.
  destruct (handle_rows_complete rows (Listener.self s) (Listener.event_queue s))
    as (new & Hi & Hsub & Hp & Hall).
  cbv zeta in *.
  destruct (Listener.handle_rows rows (Listener.self s, Listener.event_queue s))
    as [l q]. simpl in *.
  exists new. auto.
Qed.

(** Three records, T-1 twice: T-1 and T-2 are enqueued, in this order. *)
Lemma firing_cycle_enqueues_every_new_identifier_witness :
  exists new,
    PyQueue.items
      (Listener.event_queue
         (fst (Listener.loop_turn first_run
                 (Listener.GongJson (Some [row_id "T-1"; row_id "T-2"; row_id "T-1"]))
                 waiting_listener)))
    = [] ++ new
    /\ "T-1" ∈ new /\ "T-2" ∈ new.
Proof.
  destruct (firing_cycle_enqueues_every_new_identifier first_run
              [row_id "T-1"; row_id "T-2"; row_id "T-1"] waiting_listener eq_refl)
    as (new & Hi & _ & _ & Hall).
  exists new. split; [exact Hi|]. split; apply Hall; vm_compute; set_solver.
Defined.

(** ** The poller: starting, and what any run of the loop keeps *)

Lemma dt_time_returns_iff (hour minute : Z) :
  is_raise (Listener.dt_time hour minute) = false
  <-> 0 <= hour < 24 /\ 0 <= minute < 60.
Proof.
  unfold Listener.dt_time.
  destruct ((0 <=? hour) && (hour <? 24) && (0 <=? minute) && (minute <? 60))%Z eqn:E;
    simpl.
  - rewrite !andb_true_iff, !Z.leb_le, !Z.ltb_lt in E. split; [lia | reflexivity].
  - split; [discriminate|]. intros H.
    assert (((0 <=? hour) && (hour <? 24) && (0 <=? minute) && (minute <? 60))%Z = true).
    { rewrite !andb_true_iff, !Z.leb_le, !Z.ltb_lt. lia. }
    congruence.
Qed.

(** [start_listening] gets to its loop exactly when the configured hour is
    within 0..23 and the minute within 0..59 (otherwise building the time
    raises and the listener thread ends before polling anything).  When it
    does, the flag is set, seen set and queue are untouched, and the first
    run lies strictly after [now] and, for a clock reading with a valid
    time of day, at most 24 hours after it. *)
Theorem start_listening_schedules_within_a_day
        (l : Listener.t) (q : PyQueue.t) (now : Listener.datetime) :
  (is_raise (Listener.start_listening l q now) = false
   <-> 0 <= Listener.run_hour l < 24 /\ 0 <= Listener.run_minute l < 60)
  /\ (forall s,
        Listener.start_listening l q now = Returns s ->
        Listener.running (Listener.self s) = true
        /\ Listener.processed_ids (Listener.self s) = Listener.processed_ids l
        /\ Listener.event_queue s = q
        /\ Listener.dt_ltb now (Listener.next_run s) = true
        /\ (0 <= Listener.micros now < Listener.day_us ->
            0 < Listener.diff_us (Listener.next_run s) now <= Listener.day_us)).
Proof.
  unfold Listener.start_listening, Listener.initial_next_run. simpl.
  pose proof (dt_time_returns_iff (Listener.run_hour l) (Listener.run_minute l)) as Hiff.
  destruct (Listener.dt_time (Listener.run_hour l) (Listener.run_minute l))
    as [at_time|e] eqn:E; simpl in *.
  - split; [exact Hiff|].
    assert (Hat : 0 <= at_time < Listener.day_us).
    { destruct (proj1 Hiff eq_refl) as [Hh Hm].
      unfold Listener.dt_time in E.
      destruct (_ && _)%bool in E; [|discriminate]. injection E as <-.
      unfold Listener.day_us. lia. }
    intros s H. injection H as <-. simpl.
    split; [reflexivity|]. split; [reflexivity|]. split; [reflexivity|].
    unfold Listener.dt_ltb, Listener.combine, Listener.add_days, Listener.diff_us.
    simpl. rewrite Z.ltb_irrefl, Z.eqb_refl. simpl.
    destruct (Listener.micros now <? at_time)%Z eqn:Elt; simpl.
    + rewrite Z.ltb_irrefl, Z.eqb_refl, Elt. simpl. split; [reflexivity|].
      apply Z.ltb_lt in Elt. unfold Listener.day_us in *. lia.
    + assert (Hord : (Listener.ordinal now <? Listener.ordinal now + 1)%Z = true)
        by (apply Z.ltb_lt; lia).
      rewrite Hord. simpl. split; [reflexivity|].
      apply Z.ltb_ge in Elt. unfold Listener.day_us in *. lia.
  - split; [exact Hiff|]. intros s H. discriminate.
Qed.

(** RUN_HOUR=24: the listener never gets to its loop. *)
Lemma start_listening_schedules_within_a_day_witness :
  is_raise (Listener.start_listening (Listener.init 24 0 300) PyQueue.empty afternoon)
  = true.
Proof.
  destruct (is_raise (Listener.start_listening (Listener.init 24 0 300)
                        PyQueue.empty afternoon)) eqn:E; [reflexivity|].
  apply (proj1 (start_listening_schedules_within_a_day
                  (Listener.init 24 0 300) PyQueue.empty afternoon)) in E.
  simpl in E. lia.
Defined.

Lemma loop_turn_keeps (now : Listener.datetime) (reply : Listener.gong_reply)
      (s : Listener.loop_state) :
  let s' := fst (Listener.loop_turn now reply s) in
  Listener.micros (Listener.next_run s') = Listener.micros (Listener.next_run s)
  /\ Listener.ordinal (Listener.next_run s)
     <= Listener.ordinal (Listener.next_run s')
     <= Listener.ordinal (Listener.next_run s) + 1
  /\ Listener.processed_ids (Listener.self s)
     ⊆ Listener.processed_ids (Listener.self s')
  /\ (exists new, PyQueue.items (Listener.event_queue s')
                  = PyQueue.items (Listener.event_queue s) ++ new)
  /\ Listener.running (Listener.self s') = Listener.running (Listener.self s).
Proof.
  destruct (loop_turn_spec now reply s) as (new & Hi & _ & _ & Hp & Hr & _).
  destruct (loop_turn_next_run now reply s) as (Hfired & Hnot & _).
  cbv zeta in *.
  destruct (Listener.loop_turn now reply s) as [s' t] eqn:E. simpl in *.
  assert (Hnr : Listener.next_run s' = Listener.add_days (Listener.next_run s) 1
                \/ Listener.next_run s' = Listener.next_run s).
  { destruct t; [right|left|right]; try (rewrite Hnot by discriminate; reflexivity).
    apply Hfired. reflexivity. }
  split; [destruct Hnr as [-> | ->]; reflexivity|].
  split; [destruct Hnr as [-> | ->]; simpl; lia|].
  split; [rewrite Hp; set_solver|].
  split; [exists new; exact Hi | exact Hr].
Qed.

(** Over any run of the listener loop, however late its turns are taken
    and whatever Gong answers: the time of day of [next_run] never changes
    and its date never goes back (it advances by at most one day per
    turn); no identifier ever leaves the seen set; the listener only adds
    to the back of the queue; and the loop never clears its own flag. *)
Theorem listener_run_keeps_schedule_and_seen_set
        (inputs : list (Listener.datetime * Listener.gong_reply))
        (s : Listener.loop_state) :
  let s' := Listener.run_loop inputs s in
  Listener.micros (Listener.next_run s') = Listener.micros (Listener.next_run s)
  /\ Listener.ordinal (Listener.next_run s)
     <= Listener.ordinal (Listener.next_run s')
     <= Listener.ordinal (Listener.next_run s) + Z.of_nat (length inputs)
  /\ Listener.processed_ids (Listener.self s)
     ⊆ Listener.processed_ids (Listener.self s')
  /\ (exists new, PyQueue.items (Listener.event_queue s')
                  = PyQueue.items (Listener.event_queue s) ++ new)
  /\ Listener.running (Listener.self s') = Listener.running (Listener.self s).
Proof.
  revert s. induction inputs as [|[now reply] rest IH]; intros s; cbv zeta.
  - simpl. repeat split; try lia; try set_solver. exists []. rewrite app_nil_r. reflexivity.
  - cbn [Listener.run_loop].
    destruct (Listener.running (Listener.self s)) eqn:Er.
    + destruct (loop_turn_keeps now reply s) as (Hm & Ho & Hp & (new1 & Hq) & Hr).
      destruct (IH (fst (Listener.loop_turn now reply s)))
        as (Hm' & Ho' & Hp' & (new2 & Hq') & Hr').
      cbv zeta in *. repeat split.
      * congruence.
      * lia.
      * cbn [length]. lia.
      * set_solver.
      * exists (new1 ++ new2). rewrite Hq', Hq, <- app_assoc. reflexivity.
      * congruence.
    + repeat split; try lia; try set_solver; try congruence.
      exists []. rewrite app_nil_r. reflexivity.
Qed.

(** ** The pipeline runner: what every call accounts for *)

(** Every call of [process_transcript], whatever the stages do: the
    in-flight gauge is back where it was ([finally]), the flag and
    [max_retries] are untouched, the log only grows and its first new line
    is PROCESSING_STARTED for this identifier and attempt.  A call that
    returns [True] counts one success, no error, and leaves the queue; a
    call that returns [False] counts no success and exactly one error
    label, and either leaves the queue or puts the identifier back once,
    the latter only with [attempt] below [max_retries]. *)
Theorem process_transcript_accounts_for_every_exit
        (st : Orchestrator.Stages) (tid : string) (attempt : Z)
        (o : Orchestrator.t) (q : PyQueue.t) :
  let r := Orchestrator.process_transcript st tid attempt o q in
  let b := fst (fst r) in
  let o' := snd (fst r) in
  let q' := snd r in
  Orchestrator.in_flight_gauge o' = Orchestrator.in_flight_gauge o
  /\ Orchestrator.running o' = Orchestrator.running o
  /\ Orchestrator.max_retries o' = Orchestrator.max_retries o
  /\ (exists rest,
        Orchestrator.json_log o'
        = Orchestrator.json_log o ++ started_line tid attempt :: rest)
  /\ (b = true ->
      Orchestrator.success_counter o' = S (Orchestrator.success_counter o)
      /\ Orchestrator.error_counter o' = Orchestrator.error_counter o
      /\ q' = q)
  /\ (b = false ->
      Orchestrator.success_counter o' = Orchestrator.success_counter o
      /\ (exists m e,
            Orchestrator.error_counter o'
            = <[(m, e) := S (Orchestrator.error_count o m e)]>
                (Orchestrator.error_counter o))
      /\ (q' = q \/ (q' = PyQueue.put tid q /\ attempt < Orchestrator.max_retries o))).
Proof.
  cbv zeta. unfold Orchestrator.process_transcript, Orchestrator.try_block.
  destruct (Orchestrator.fetch_data st tid) as [[data|]|e]; cbv zeta.
  - destruct (Orchestrator.get_summary st data) as [summary|e].
    + destruct (opt_truthy summary); cbn [negb].
      * destruct (Orchestrator.update_drive_docs st _ _) as [links|e].
        -- destruct (Orchestrator.send_emails st data _ links) as [status|e].
           ++ simpl. split; [lia|]. split; [reflexivity|]. split; [reflexivity|].
              split; [eexists; rewrite <- !app_assoc; reflexivity|].
              split; [auto|discriminate].
           ++ unfold Orchestrator.except_block, Orchestrator.should_retry. cbv zeta.
              destruct (attempt <? _)%Z eqn:E; simpl;
                (split; [lia|]); (split; [reflexivity|]); (split; [reflexivity|]);
                (split; [eexists; rewrite <- !app_assoc; reflexivity|]);
                (split; [discriminate|]); intros _;
                (split; [reflexivity|]); (split; [eexists; eexists; reflexivity|]).
              ** right. split; [reflexivity|]. apply Z.ltb_lt in E. exact E.
              ** left. reflexivity.
        -- unfold Orchestrator.except_block, Orchestrator.should_retry. cbv zeta.
           destruct (attempt <? _)%Z eqn:E; simpl;
             (split; [lia|]); (split; [reflexivity|]); (split; [reflexivity|]);
             (split; [eexists; rewrite <- !app_assoc; reflexivity|]);
             (split; [discriminate|]); intros _;
             (split; [reflexivity|]); (split; [eexists; eexists; reflexivity|]).
           ++ right. split; [reflexivity|]. apply Z.ltb_lt in E. exact E.
           ++ left. reflexivity.
      * simpl. split; [lia|]. split; [reflexivity|]. split; [reflexivity|].
        split; [eexists; rewrite <- !app_assoc; reflexivity|].
        split; [discriminate|]. intros _. split; [reflexivity|].
        split; [eexists; eexists; reflexivity|]. left. reflexivity.
    + unfold Orchestrator.except_block, Orchestrator.should_retry. cbv zeta.
      destruct (attempt <? _)%Z eqn:E; simpl;
        (split; [lia|]); (split; [reflexivity|]); (split; [reflexivity|]);
        (split; [eexists; rewrite <- !app_assoc; reflexivity|]);
        (split; [discriminate|]); intros _;
        (split; [reflexivity|]); (split; [eexists; eexists; reflexivity|]).
      * right. split; [reflexivity|]. apply Z.ltb_lt in E. exact E.
      * left. reflexivity.
  - simpl. split; [lia|]. split; [reflexivity|]. split; [reflexivity|].
    split; [eexists; rewrite <- !app_assoc; reflexivity|].
    split; [discriminate|]. intros _. split; [reflexivity|].
    split; [eexists; eexists; reflexivity|]. left. reflexivity.
  - unfold Orchestrator.except_block, Orchestrator.should_retry. cbv zeta.
    destruct (attempt <? _)%Z eqn:E; simpl;
      (split; [lia|]); (split; [reflexivity|]); (split; [reflexivity|]);
      (split; [eexists; rewrite <- !app_assoc; reflexivity|]);
      (split; [discriminate|]); intros _;
      (split; [reflexivity|]); (split; [eexists; eexists; reflexivity|]).
    + right. split; [reflexivity|]. apply Z.ltb_lt in E. exact E.
    + left. reflexivity.
Qed.

(** ** The worker loop: order of service *)

(** Whether the [try] block raises depends on the stages alone, not on
    the orchestrator's state or the attempt number. *)
Lemma try_block_outcome_independent
      (st : Orchestrator.Stages) (tid : string) (a a' : Z) (o o' : Orchestrator.t) :
  fst (Orchestrator.try_block st tid a o) = fst (Orchestrator.try_block st tid a' o').
Proof.
  unfold Orchestrator.try_block.
  destruct (Orchestrator.fetch_data st tid) as [[data|]|e]; cbv zeta; try reflexivity.
  destruct (Orchestrator.get_summary st data) as [summary|e]; try reflexivity.
  destruct (opt_truthy summary); cbn [negb]; try reflexivity.
  destruct (Orchestrator.update_drive_docs st _ _) as [links|e]; try reflexivity.
  destruct (Orchestrator.send_emails st data _ links); reflexivity.
Qed.

Lemma try_block_keeps_config
      (st : Orchestrator.Stages) (tid : string) (a : Z) (o : Orchestrator.t) :
  Orchestrator.max_retries (snd (Orchestrator.try_block st tid a o))
  = Orchestrator.max_retries o
  /\ Orchestrator.running (snd (Orchestrator.try_block st tid a o))
     = Orchestrator.running o.
Proof.
  unfold Orchestrator.try_block.
  destruct (Orchestrator.fetch_data st tid) as [[data|]|e]; cbv zeta; try (split; reflexivity).
  destruct (Orchestrator.get_summary st data) as [summary|e]; try (split; reflexivity).
  destruct (opt_truthy summary); cbn [negb]; try (split; reflexivity).
  destruct (Orchestrator.update_drive_docs st _ _) as [links|e]; try (split; reflexivity).
  destruct (Orchestrator.send_emails st data _ links); split; reflexivity.
Qed.

(** The state a call leaves, as far as the loop depends on it. *)
Lemma process_transcript_keeps
      (st : Orchestrator.Stages) (tid : string) (a : Z)
      (o : Orchestrator.t) (q : PyQueue.t) :
  let r := Orchestrator.process_transcript st tid a o q in
  Orchestrator.in_flight_gauge (snd (fst r)) = Orchestrator.in_flight_gauge o
  /\ Orchestrator.running (snd (fst r)) = Orchestrator.running o
  /\ Orchestrator.max_retries (snd (fst r)) = Orchestrator.max_retries o
  /\ snd r = (if is_raise (fst (Orchestrator.try_block st tid a o))
                 && (a <? Orchestrator.max_retries o)%Z
              then PyQueue.put tid q else q).
Proof.
  cbv zeta. unfold Orchestrator.process_transcript, Orchestrator.try_block.
  destruct (Orchestrator.fetch_data st tid) as [[data|]|e]; cbv zeta.
  - destruct (Orchestrator.get_summary st data) as [summary|e].
    + destruct (opt_truthy summary); cbn [negb].
      * destruct (Orchestrator.update_drive_docs st _ _) as [links|e].
        -- destruct (Orchestrator.send_emails st data _ links) as [status|e].
           ++ simpl. split; [lia|]. auto.
           ++ unfold Orchestrator.except_block, Orchestrator.should_retry. cbv zeta.
              simpl. destruct (a <? _)%Z; simpl; (split; [lia|]); auto.
        -- unfold Orchestrator.except_block, Orchestrator.should_retry. cbv zeta.
           simpl. destruct (a <? _)%Z; simpl; (split; [lia|]); auto.
      * simpl. split; [lia|]. auto.
    + unfold Orchestrator.except_block, Orchestrator.should_retry. cbv zeta.
      simpl. destruct (a <? _)%Z; simpl; (split; [lia|]); auto.
  - simpl. split; [lia|]. auto.
  - unfold Orchestrator.except_block, Orchestrator.should_retry. cbv zeta.
    simpl. destruct (a <? _)%Z; simpl; (split; [lia|]); auto.
Qed.

(** The queue after a worker turn that found an item. *)
Lemma worker_turn_queue
      (st : Orchestrator.Stages) (o : Orchestrator.t)
      (tid : string) (rest : list string) (u : nat) :
  let q := {| PyQueue.items := tid :: rest; PyQueue.unfinished_tasks := S u |} in
  let raised := is_raise (fst (Orchestrator.try_block st tid
                                 Orchestrator.default_attempt o)) in
  snd (Orchestrator.worker_turn st o q)
  = (if raised && (1 <? Orchestrator.max_retries o)%Z
     then {| PyQueue.items := rest ++ [tid]; PyQueue.unfinished_tasks := S u |}
     else {| PyQueue.items := rest; PyQueue.unfinished_tasks := u |})
  /\ Orchestrator.running (fst (Orchestrator.worker_turn st o q))
     = Orchestrator.running o
  /\ Orchestrator.in_flight_gauge (fst (Orchestrator.worker_turn st o q))
     = Orchestrator.in_flight_gauge o.
Proof.
  cbv zeta. unfold Orchestrator.worker_turn, PyQueue.get.
  cbn [PyQueue.items PyQueue.unfinished_tasks].
  set (o0 := Orchestrator.set_queue_size_gauge _ o).
  set (q1 := {| PyQueue.items := rest; PyQueue.unfinished_tasks := S u |}).
  rewrite (try_block_outcome_independent st tid _ Orchestrator.default_attempt o o0).
  destruct (process_transcript_keeps st tid Orchestrator.default_attempt o0 q1)
    as (Hg & Hr & Hm & Hq).
  cbv zeta in *.
  destruct (Orchestrator.process_transcript st tid Orchestrator.default_attempt o0 q1)
    as [[b o2] q2]. cbn [fst snd] in *. subst q2.
  change (Orchestrator.max_retries o0) with (Orchestrator.max_retries o).
  change (Orchestrator.default_attempt <? Orchestrator.max_retries o)%Z
    with (1 <? Orchestrator.max_retries o)%Z.
  destruct (is_raise _ && (1 <? Orchestrator.max_retries o)%Z); simpl; auto.
Qed.

(** The worker serves the queue in order.  A turn takes the item at the
    head and sets the queue-size gauge to the length it found.  When the
    item's processing raises and [max_retries] is above 1, the identifier
    goes to the back of the queue, behind the items that were waiting;
    otherwise (it succeeded, failed without exception, or [max_retries]
    is 1 or less) it is gone.  A turn on an empty queue changes nothing
    but the gauge. *)
Theorem worker_serves_head_and_requeues_at_back
        (st : Orchestrator.Stages) (o : Orchestrator.t)
        (tid : string) (rest : list string) (u : nat) :
  let q := {| PyQueue.items := tid :: rest; PyQueue.unfinished_tasks := S u |} in
  let idle := {| PyQueue.items := []; PyQueue.unfinished_tasks := u |} in
  let raised := is_raise (fst (Orchestrator.try_block st tid
                                 Orchestrator.default_attempt o)) in
  snd (Orchestrator.worker_turn st o q)
  = (if raised && (1 <? Orchestrator.max_retries o)%Z
     then {| PyQueue.items := rest ++ [tid]; PyQueue.unfinished_tasks := S u |}
     else {| PyQueue.items := rest; PyQueue.unfinished_tasks := u |})
  /\ Orchestrator.queue_size_gauge (fst (Orchestrator.worker_turn st o q))
     = Z.of_nat (S (length rest))
  /\ Orchestrator.worker_turn st o idle
     = (Orchestrator.set_queue_size_gauge 0 o, idle).
Proof.
  cbv zeta. split; [apply worker_turn_queue|]. split; [|reflexivity].
  unfold Orchestrator.worker_turn, PyQueue.get.
  cbn [PyQueue.items PyQueue.unfinished_tasks].
  set (o0 := Orchestrator.set_queue_size_gauge _ o).
  assert (Hg : forall a q, Orchestrator.queue_size_gauge
                 (snd (fst (Orchestrator.process_transcript st tid a o0 q)))
               = Orchestrator.queue_size_gauge o0).
  { intros a q. unfold Orchestrator.process_transcript, Orchestrator.try_block.
    destruct (Orchestrator.fetch_data st tid) as [[data|]|e]; cbv zeta.
    - destruct (Orchestrator.get_summary st data) as [summary|e].
      + destruct (opt_truthy summary); cbn [negb].
        * destruct (Orchestrator.update_drive_docs st _ _) as [links|e].
          -- destruct (Orchestrator.send_emails st data _ links) as [status|e];
               [reflexivity|].
             unfold Orchestrator.except_block, Orchestrator.should_retry. cbv zeta.
             simpl. destruct (a <? _)%Z; reflexivity.
          -- unfold Orchestrator.except_block, Orchestrator.should_retry. cbv zeta.
             simpl. destruct (a <? _)%Z; reflexivity.
        * reflexivity.
      + unfold Orchestrator.except_block, Orchestrator.should_retry. cbv zeta.
        simpl. destruct (a <? _)%Z; reflexivity.
    - reflexivity.
    - unfold Orchestrator.except_block, Orchestrator.should_retry. cbv zeta.
      simpl. destruct (a <? _)%Z; reflexivity. }
  match goal with
  | |- context [Orchestrator.process_transcript st tid ?a o0 ?q] =>
      specialize (Hg a q);
      destruct (Orchestrator.process_transcript st tid a o0 q) as [[b o2] q2]
  end.
  cbn [fst snd] in *.
  destruct (PyQueue.task_done q2); cbn [fst]; rewrite Hg; reflexivity.
Qed.

(** ** The process: queue accounting, and what a cleared flag ends *)

Lemma exec_keeps_accounting (ev : System.event) (s s' : System.t) :
  System.exec ev s = Some s' ->
  PyQueue.unfinished_tasks (System.event_queue s)
  = length (PyQueue.items (System.event_queue s)) ->
  PyQueue.unfinished_tasks (System.event_queue s')
  = length (PyQueue.items (System.event_queue s'))
  /\ Orchestrator.in_flight_gauge (System.orch s')
     = Orchestrator.in_flight_gauge (System.orch s).
Proof.
  destruct ev as [|st| | |now reply]; simpl; intros H Hinv.
  - destruct (System.is_exited _); inversion H; subst; simpl. auto.
  - destruct (System.pc s); try discriminate.
    destruct (Orchestrator.running _); try discriminate.
    destruct (System.event_queue s) as [items u] eqn:Eq. simpl in Hinv.
    destruct items as [|tid rest].
    + unfold Orchestrator.worker_turn, PyQueue.get in H. simpl in H.
      injection H as <-. simpl. auto.
    + simpl in Hinv. subst u.
      destruct (worker_turn_queue st (System.orch s) tid rest (length rest))
        as (Hq & _ & Hg).
      cbv zeta in *.
      destruct (Orchestrator.worker_turn st (System.orch s) _) as [o q].
      injection H as <-. simpl in *. subst q. split; [|exact Hg].
      destruct (_ && _)%bool; simpl; [|reflexivity].
      rewrite length_app. simpl. lia.
  - destruct (System.pc s); try discriminate.
    destruct (Orchestrator.running _); inversion H; subst; simpl. auto.
  - destruct (System.pc s); try discriminate.
    destruct (PyQueue.join_returns _); inversion H; subst; simpl. auto.
  - destruct (System.is_exited _); try discriminate.
    destruct (Listener.running _); try discriminate.
    injection H as <-. simpl.
    match goal with
    | |- context [Listener.loop_turn now reply ?ls] =>
        destruct (loop_turn_spec now reply ls) as (new & Hi & _ & _ & _ & _ & Hu)
    end.
    cbv zeta in *. simpl in *. rewrite Hu, Hi, Hinv, length_app. auto.
Qed.

(** At every point a started process can reach between two events (any
    order of worker turns, listener turns and signals), the count that
    [join()] waits on equals the number of queued items and no item is in
    flight: [join()] can return exactly when the queue is empty, and the
    worker's [task_done()] never finds the count at zero. *)
Theorem started_process_counts_queued_items
        (evs : list System.event) (retries : Z) (next_run : Listener.datetime)
        (s : System.t) :
  System.exec_all evs (System.started retries next_run) = Some s ->
  PyQueue.unfinished_tasks (System.event_queue s)
  = length (PyQueue.items (System.event_queue s))
  /\ (PyQueue.join_returns (System.event_queue s) = true
      <-> PyQueue.items (System.event_queue s) = [])
  /\ Orchestrator.in_flight_gauge (System.orch s) = 0.
Proof.
  assert (Hgen : forall evs s0 s1,
            System.exec_all evs s0 = Some s1 ->
            PyQueue.unfinished_tasks (System.event_queue s0)
            = length (PyQueue.items (System.event_queue s0)) ->
            PyQueue.unfinished_tasks (System.event_queue s1)
            = length (PyQueue.items (System.event_queue s1))
            /\ Orchestrator.in_flight_gauge (System.orch s1)
               = Orchestrator.in_flight_gauge (System.orch s0)).
  { clear. induction evs as [|ev evs IH]; intros s0 s1; simpl.
    - intros H. injection H as <-. auto.
    - destruct (System.exec ev s0) as [s'|] eqn:E; [|discriminate].
      intros H Hinv. destruct (exec_keeps_accounting ev s0 s' E Hinv) as [Hinv' Hg].
      destruct (IH s' s1 H Hinv') as [Hinv'' Hg']. split; [exact Hinv''|]. congruence. }
  intros H. destruct (Hgen evs _ s H eq_refl) as [Hinv Hg].
  split; [exact Hinv|]. split; [|exact Hg].
  unfold PyQueue.join_returns. rewrite Hinv, Nat.eqb_eq. split.
  - intros Hl. destruct (PyQueue.items (System.event_queue s)); [reflexivity|discriminate].
  - intros ->. reflexivity.
Qed.

Lemma started_process_counts_queued_items_witness :
  exists s,
    System.exec_all shutdown_trace
      (System.started Orchestrator.default_max_retries first_run) = Some s
    /\ PyQueue.unfinished_tasks (System.event_queue s)
       = length (PyQueue.items (System.event_queue s)).
Proof.
  eexists. split; [vm_compute; reflexivity|].
  eapply (started_process_counts_queued_items shutdown_trace
            Orchestrator.default_max_retries first_run).
  vm_compute. reflexivity.
Defined.





(** ** Drive: the document operations *)

Lemma batch_insert_runs (doc_id : nat) (index : Z) (content text : string) (d : Drive.t) :
  Drive.up d = true ->
  Drive.docs d !! doc_id = Some text ->
  (1 <= index <= Z.of_nat (String.length text) + 1)%Z ->
  exists d', Drive.batch_insert doc_id index content d = (Returns tt, d').
Proof.
  intros Hup Htext Hi. unfold Drive.batch_insert, Drive.request.
  rewrite Hup, Htext.
  replace ((1 <=? index)%Z && (index <=? Z.of_nat (String.length text) + 1)%Z)
    with true by (symmetry; apply andb_true_iff; split; apply Z.leb_le; lia).
  eexists. reflexivity.
Qed.


Lemma first_request_refused {A B} (f : Drive.t -> outcome A * Drive.t)
      (k : A -> Drive.M B) (d : Drive.t) :
  Drive.up d = false ->
  Drive.bind (Drive.request f) k d = (Raises Drive.http_error, d).
Proof. intros Hup. unfold Drive.bind, Drive.request. rewrite Hup. reflexivity. Qed.


(** [append_to_doc] returns exactly when the service answers and the
    document exists; the document then holds its former text followed by
    [content], and nothing else has changed.  Otherwise it raises the
    service's error and has changed nothing. *)
Theorem append_to_doc_extends_text_or_changes_nothing
        (doc_id : nat) (content : string) (d : Drive.t) :
  let r := Drive.append_to_doc doc_id content d in
  (is_raise (fst r) = false
   <-> Drive.up d = true /\ is_Some (Drive.docs d !! doc_id))
  /\ (forall text, Drive.docs d !! doc_id = Some text ->
      is_raise (fst r) = false ->
      snd r = with_doc d doc_id (text +:+ content))
  /\ (is_raise (fst r) = true -> r = (Raises Drive.http_error, d)).
Proof.
  cbv zeta.
  destruct (Drive.up d) eqn:Hup.
  - destruct (Drive.docs d !! doc_id) as [text|] eqn:Htext.
    + assert (H : exists d', Drive.append_to_doc doc_id content d = (Returns tt, d')).
      { unfold Drive.append_to_doc, Drive.bind, Drive.documents_get_end_index.
        unfold Drive.request at 1. rewrite Hup, Htext.
        eapply batch_insert_runs; [exact Hup | exact Htext | lia]. }
      destruct H as [d' H]. rewrite H. simpl. split; [|split].
      * split; [intros _; split; [reflexivity | eexists; reflexivity] | reflexivity].
      * intros text0 Ht0 _. injection Ht0 as <-.
        apply append_to_doc_spec in H as (t & Ht & ->).
        rewrite Htext in Ht. injection Ht as <-. reflexivity.
      * discriminate.
    + assert (H : Drive.append_to_doc doc_id content d = (Raises Drive.http_error, d)).
      { unfold Drive.append_to_doc, Drive.bind, Drive.documents_get_end_index,
          Drive.request. rewrite Hup, Htext. reflexivity. }
      rewrite H. simpl. split; [|split].
      * split; [discriminate | intros [_ [x Hx]]; discriminate].
      * intros text Ht. discriminate.
      * reflexivity.
  - assert (H : Drive.append_to_doc doc_id content d = (Raises Drive.http_error, d)).
    { apply first_request_refused. exact Hup. }
    rewrite H. simpl. split; [|split].
    + split; [discriminate | intros [? _]; discriminate].
    + intros text _. discriminate.
    + reflexivity.
Qed.

(** ** Drive: folders, documents and the whole stage *)










Lemma find_or_create_frame (nm mime : string) (parent : option nat)
      (d d' : Drive.t) (i : nat) :
  Drive.find_or_create nm mime parent d = (Returns i, d') ->
  Drive.up d' = Drive.up d
  /\ (exists extra, Drive.files d' = Drive.files d ++ extra /\ (length extra <= 1)%nat)
  /\ (forall j, j <> i -> Drive.docs d' !! j = Drive.docs d !! j).
Proof.
  intros H.
  destruct (find_or_create_spec _ _ _ _ _ _ H) as [_ [[-> _] | (_ & -> & ->)]].
  - split; [reflexivity|]. split; [|reflexivity].
    exists []. rewrite app_nil_r. split; [reflexivity | simpl; lia].
  - split; [reflexivity|]. split; [eexists; split; [reflexivity | simpl; lia]|].
    intros j Hj. simpl. destruct (String.eqb mime Drive.document_mime); [|reflexivity].
    apply lookup_insert_ne. congruence.
Qed.

(** A call of [update_drive_docs] that returns has touched nothing but
    its own two documents: every other document has the text it had, no
    file was removed, renamed or moved (the listing is the former one with
    at most four files added behind it), and the links returned are those
    of the two documents written. *)
Theorem update_drive_docs_leaves_the_rest_of_the_drive
        (account_name summary timestamp : string)
        (d d' : Drive.t) (u : string * string) :
  Drive.update_drive_docs account_name summary timestamp d = (Returns u, d') ->
  exists a b extra,
    u = (Drive.get_doc_url a, Drive.get_doc_url b)
    /\ Drive.files d' = Drive.files d ++ extra
    /\ (length extra <= 4)%nat
    /\ forall j, j <> a -> j <> b -> Drive.docs d' !! j = Drive.docs d !! j.
Proof.
  intros H.
  destruct (update_drive_docs_steps _ _ _ _ _ _ H)
    as (c & dA & f & dB & a & dC & b & dE & text & Hc & Hf & Ha & Hb & _ & -> & ->).
  destruct (find_or_create_frame _ _ _ _ _ _ Hc) as (_ & (e1 & Hf1 & Hl1) & Hd1).
  destruct (find_or_create_frame _ _ _ _ _ _ Hf) as (_ & (e2 & Hf2 & Hl2) & Hd2).
  destruct (find_or_create_frame _ _ _ _ _ _ Ha) as (_ & (e3 & Hf3 & Hl3) & Hd3).
  destruct (find_or_create_frame _ _ _ _ _ _ Hb) as (_ & (e4 & Hf4 & Hl4) & Hd4).
  assert (HdA : Drive.docs dA = Drive.docs d).
  { destruct (find_or_create_spec _ _ _ _ _ _ Hc) as [_ [[-> _] | (_ & _ & ->)]];
      reflexivity. }
  assert (HdB : Drive.docs dB = Drive.docs dA).
  { destruct (find_or_create_spec _ _ _ _ _ _ Hf) as [_ [[-> _] | (_ & _ & ->)]];
      reflexivity. }
  exists a, b, (e1 ++ e2 ++ e3 ++ e4).
  split; [reflexivity|]. split; [|split].
  - simpl. rewrite Hf4. simpl. rewrite Hf3, Hf2, Hf1, <- !app_assoc. reflexivity.
  - rewrite !length_app. lia.
  - intros j Hja Hjb. simpl.
    rewrite lookup_insert_ne by congruence.
    rewrite (Hd4 j Hjb). simpl.
    rewrite lookup_insert_ne by congruence.
    rewrite (Hd3 j Hja), HdB, HdA. reflexivity.
Qed.

Lemma update_drive_docs_leaves_the_rest_of_the_drive_witness :
  exists a b extra,
    fst acme_second = Returns (Drive.get_doc_url a, Drive.get_doc_url b)
    /\ Drive.files (snd acme_second) = Drive.files (snd acme_first) ++ extra
    /\ (length extra <= 4)%nat.
Proof.
  destruct (update_drive_docs_leaves_the_rest_of_the_drive
              "Acme" "Second summary" "2025-03-02 07:00"
              (snd acme_first) (snd acme_second)
              ("https://docs.google.com/document/d/2/edit",
               "https://docs.google.com/document/d/3/edit"))
    as (a & b & extra & Hu & Hfiles & Hlen & _).
  - vm_compute. reflexivity.
  - exists a, b, extra. split; [|split; [exact Hfiles | exact Hlen]].
    rewrite <- Hu. vm_compute. reflexivity.
Defined.
